(** * dbt-vertica: the connection manager of the Vertica adapter

    A shallow embedding of [dbt/adapters/vertica/connections.py]: the
    credentials dataclass, [verticaConnectionManager.open],
    [get_response], [get_result_from_cursor], [execute] and the
    [exception_handler] context manager.

    The adapter is glue between two libraries it does not own: the vendor
    driver [vertica_python] and the dbt framework.  Both are interfaces
    here (type classes over a type [W] of states of the outside world);
    the adapter's methods are programs in a state-and-exception monad
    that thread the outside world, the store of connection objects and a
    trace of the calls made. *)

From stdpp Require Import gmap strings list fin_maps.

(** ** Python values *)

(** The values that occur as keyword arguments of [connect], as cells of
    a fetched row and as the return value of [cursor.nextset()]. *)
Inductive pyvalue :=
  | PyNone
  | PyBool (b : bool)
  | PyInt (z : Z)
  | PyStr (s : string).

(** Python's truth value testing, as [while cursor.nextset():] applies
    it. *)
Definition truthy (v : pyvalue) : bool :=
  match v with
  | PyNone => false
  | PyBool b => b
  | PyInt z => negb (Z.eqb z 0)
  | PyStr s => negb (String.eqb s "")
  end.

(** ** Exceptions *)

(** The classes the handlers tell apart.  Every class here derives from
    Python's [Exception]: that is what [except Exception] catches, and
    what the driver's errors derive from.  Interpreter signals outside
    [Exception] ([KeyboardInterrupt], [SystemExit]) are not modelled.
    [VerticaDatabaseError] stands for [vertica_python.DatabaseError] and
    its subclasses, the three next ones for the classes of
    [dbt.exceptions] the adapter raises, [OtherException] for any other
    subclass of [Exception], named. *)
Inductive exception_class :=
  | VerticaDatabaseError
  | FailedToConnectException
  | DatabaseException
  | RuntimeException
  | OtherException (name : string).

(** An exception object: its class and the message it was built with. *)
Record exception := Exc {
  exc_class : exception_class;
  exc_message : string
}.

(** [isinstance(exc, vertica_python.DatabaseError)], the test of the
    first [except] clause of [exception_handler]. *)
Definition is_DatabaseError (exc : exception) : bool :=
  match exc_class exc with
  | VerticaDatabaseError => true
  | _ => false
  end.

(** ** Credentials and connections *)

(** [@dataclass class verticaCredentials(Credentials)]. *)
Record verticaCredentials := {
  host : string;
  database : string;
  schema : string;
  username : string;
  password : string;
  port : Z;
  timeout : Z;
  withMaterialization : bool
}.

(** The defaults of the dataclass fields. *)
Definition default_port : Z := 5433.
Definition default_timeout : Z := 3600.
Definition default_withMaterialization : bool := false.

(** The [type] property. *)
Definition credentials_type (_ : verticaCredentials) : string := "vertica".

Definition _connection_keys (_ : verticaCredentials) : list string :=
  ["host"; "port"; "database"; "username"; "schema"].

(** What the driver hands back. *)
Inductive Handle := mkHandle (id : nat).
Inductive Cursor := mkCursor (id : nat).

(** The framework's connection object, with the attributes the adapter
    reads and writes. *)
Record Connection := {
  state : string;
  handle : option Handle;
  credentials : verticaCredentials
}.

(** Connection objects live in a store and are passed by reference. *)
Definition loc := nat.

(** ** The outside world *)

(** A call into the driver or the framework returns or raises. *)
Inductive outcome (A : Type) :=
  | Returns (a : A)
  | Raises (exc : exception).
Arguments Returns {A} a.
Arguments Raises {A} exc.

(** [cursor._message]: the last backend message the cursor read, or
    [None]. *)
Inductive backend_message :=
  | NoMessage
  | Message (repr : string).

(** [str(cursor._message)] and the rendering in an f-string. *)
Definition str_message (m : backend_message) : string :=
  match m with
  | NoMessage => "None"
  | Message repr => repr
  end.

(** An entry of [cursor.description]: a non-empty sequence whose first
    element is the column name. *)
Definition column : Type := string * list pyvalue.

(** [col[0]] *)
Definition column_name (col : column) : string := col.1.

Definition row : Type := list pyvalue.

(** The vendor driver, [vertica_python]: [connect], the methods of the
    connection handle and of the cursor.  Attribute reads
    ([description], [_message], [rowcount]) do not change the world. *)
Class VerticaPython (W : Type) := {
  connect : gmap string pyvalue → W → outcome Handle * W;
  Connection_cursor : Handle → W → outcome Cursor * W;
  Cursor_execute : Cursor → string → W → outcome unit * W;
  Cursor_close : Cursor → W → outcome unit * W;
  Cursor_fetchall : Cursor → W → outcome (list row) * W;
  Cursor_nextset : Cursor → W → outcome pyvalue * W;
  Cursor_description : Cursor → W → option (list column);
  Cursor_message : Cursor → W → backend_message;
  Cursor_rowcount : Cursor → W → Z
}.

(** What the adapter uses of dbt: [str] on exceptions, the inherited
    [release], [add_query], [_add_query_comment] and [process_results].
    None of them is defined in this repository.  [release] closes the
    connection and is taken to return, as is the logger; [add_query]
    runs the statement and may raise.  [process_results] gets the list of
    column names by reference, so it returns the list as it leaves it
    next to the rows it builds. *)
Class Framework (W : Type) := {
  str_exc : exception → string;
  release : W → W;
  _add_query_comment : string → string;
  add_query : string → bool → W → outcome (loc * Cursor) * W;
  process_results :
    list string → list row → list string * list (gmap string pyvalue)
}.

(** ** Traces *)

(** The calls the adapter makes, in the order it makes them. *)
Inductive event :=
  | EvLog (msg : string)
  | EvConnect (conn_info : gmap string pyvalue)
  | EvCursor (h : Handle)
  | EvExecute (c : Cursor) (sql : string)
  | EvClose (c : Cursor)
  | EvFetchall (c : Cursor)
  | EvNextset (c : Cursor)
  | EvMessage (c : Cursor)
  | EvAddQuery (sql : string) (auto_begin : bool)
  | EvRelease.

Definition is_connect (ev : event) : bool :=
  match ev with EvConnect _ => true | _ => false end.

Definition is_release (ev : event) : bool :=
  match ev with EvRelease => true | _ => false end.

(** ** Program states and the monad *)

Record State (W : Type) := mkState {
  world : W;
  objects : gmap loc Connection;
  trace : list event
}.
Arguments mkState {W} _ _ _.
Arguments world {W} _.
Arguments objects {W} _.
Arguments trace {W} _.

(** A run ends with a value, with a raised exception, or it is cut off
    because a [while] loop used up its fuel. *)
Inductive result (A : Type) :=
  | Ok (a : A)
  | Raise (exc : exception)
  | OutOfFuel.
Arguments Ok {A} a.
Arguments Raise {A} exc.
Arguments OutOfFuel {A}.

Definition M (W A : Type) : Type := State W → result A * State W.

Section Monad.
Context {W : Type}.

Definition ret {A} (a : A) : M W A := λ s, (Ok a, s).

Definition bind {A B} (m : M W A) (k : A → M W B) : M W B :=
  λ s, match m s with
       | (Ok a, s') => k a s'
       | (Raise exc, s') => (Raise exc, s')
       | (OutOfFuel, s') => (OutOfFuel, s')
       end.

(** [raise exc] *)
Definition raise {A} (exc : exception) : M W A := λ s, (Raise exc, s).

(** [try: body except Exception as exc: handler] *)
Definition try_except {A} (body : M W A) (handler : exception → M W A)
  : M W A :=
  λ s, match body s with
       | (Raise exc, s') => handler exc s'
       | r => r
       end.

Definition emit (ev : event) : M W unit :=
  λ s, (Ok tt, mkState (world s) (objects s) (trace s ++ [ev])).

(** A call into the outside world. *)
Definition call {A} (f : W → outcome A * W) : M W A :=
  λ s, match f (world s) with
       | (Returns a, w) => (Ok a, mkState w (objects s) (trace s))
       | (Raises exc, w) => (Raise exc, mkState w (objects s) (trace s))
       end.

(** An attribute read on an object of the outside world. *)
Definition peek {A} (f : W → A) : M W A := λ s, (Ok (f (world s)), s).

(** [while cond: body] *)
Fixpoint while (fuel : nat) (cond : M W bool) (body : M W unit)
  : M W unit :=
  match fuel with
  | O => λ s, (OutOfFuel, s)
  | S fuel' =>
      bind cond (λ b, if b then bind body (λ _, while fuel' cond body)
                      else ret tt)
  end.

(** Attribute access on a connection object.  A reference that is not
    bound to a connection object has none of its attributes. *)
Definition getattr {A} (connection : loc) (attr : Connection → A)
  : M W A :=
  λ s, match objects s !! connection with
       | Some o => (Ok (attr o), s)
       | None => (Raise (Exc (OtherException "AttributeError") ""), s)
       end.

Definition set_state (v : string) (o : Connection) : Connection :=
  {| state := v; handle := handle o; credentials := credentials o |}.

Definition set_handle (v : option Handle) (o : Connection) : Connection :=
  {| state := state o; handle := v; credentials := credentials o |}.

Definition setattr (connection : loc) (upd : Connection → Connection)
  : M W unit :=
  λ s, (Ok tt, mkState (world s) (alter upd connection (objects s))
                       (trace s)).
End Monad.

(** The programs below are written with stdpp's monadic notation:
    [x ← m; k] and [m;; k]. *)
Global Instance M_ret {W} : MRet (M W) := λ A, ret.
Global Instance M_bind {W} : MBind (M W) := λ A B k m, bind m k.

(** ** The adapter *)

Record AdapterResponse := {
  _message : string;
  rows_affected : Z
}.

(** Modelled from the spec: [agate.Table] and the helpers
    [table_from_data_flat] and [empty_table] of
    [dbt.clients.agate_helper] are not part of this repository.  The spec
    has the adapter "copy cursor column names and rows into a generic
    tabular container": the container keeps the column names and the rows
    it is given. *)
Record Table := {
  column_names : list string;
  rows : list (gmap string pyvalue)
}.

Definition table_from_data_flat (data : list (gmap string pyvalue))
    (names : list string) : Table :=
  {| column_names := names; rows := data |}.

Definition empty_table : Table := {| column_names := []; rows := [] |}.

Section Adapter.
Context {W : Type} `{!VerticaPython W} `{!Framework W}.

(** *** Calls, each one recorded in the trace *)

Definition logger_debug (msg : string) : M W unit := emit (EvLog msg).

Definition vertica_python_connect (conn_info : gmap string pyvalue)
  : M W Handle :=
  emit (EvConnect conn_info);; call (connect conn_info).

(** [h.cursor()], where [h] is what [connection.handle] holds. *)
Definition handle_cursor (h : option Handle) : M W Cursor :=
  match h with
  | Some h => emit (EvCursor h);; call (Connection_cursor h)
  | None => raise (Exc (OtherException "AttributeError") "")
  end.

Definition cursor_execute (cur : Cursor) (sql : string) : M W unit :=
  emit (EvExecute cur sql);; call (Cursor_execute cur sql).

Definition cursor_close (cur : Cursor) : M W unit :=
  emit (EvClose cur);; call (Cursor_close cur).

Definition cursor_fetchall (cur : Cursor) : M W (list row) :=
  emit (EvFetchall cur);; call (Cursor_fetchall cur).

Definition cursor_nextset (cur : Cursor) : M W pyvalue :=
  emit (EvNextset cur);; call (Cursor_nextset cur).

Definition cursor_message (cur : Cursor) : M W backend_message :=
  emit (EvMessage cur);; peek (Cursor_message cur).

Definition self_release : M W unit :=
  emit EvRelease;; call (λ w, (Returns tt, release w)).

Definition self_add_query (sql : string) (auto_begin : bool)
  : M W (loc * Cursor) :=
  emit (EvAddQuery sql auto_begin);; call (add_query sql auto_begin).

(** *** [verticaConnectionManager.open] *)

(** The dictionary literal of [open], its items inserted in the order
    they are written. *)
Definition conn_info (credentials : verticaCredentials)
  : gmap string pyvalue :=
  <["session_label" := PyStr ("dbt_" +:+ username credentials)]>
  (<["connection_load_balance" := PyBool true]>
  (<["connection_timeout" := PyInt (timeout credentials)]>
  (<["database" := PyStr (database credentials)]>
  (<["password" := PyStr (password credentials)]>
  (<["user" := PyStr (username credentials)]>
  (<["port" := PyInt (port credentials)]>
  (<["host" := PyStr (host credentials)]> ∅))))))).

Definition open (connection : loc) : M W loc :=
  st ← getattr connection state;
  if String.eqb st "open" then
    logger_debug ":P Connection is already open";;
    mret connection
  else
    credentials ← getattr connection credentials;
    try_except
      (handle ← vertica_python_connect (conn_info credentials);
       setattr connection (set_state "open");;
       setattr connection (set_handle (Some handle));;
       logger_debug (":P Connected to database: "
                     +:+ database credentials +:+ " at "
                     +:+ host credentials))
      (λ exc,
       logger_debug (":P Error connecting to database: " +:+ str_exc exc);;
       setattr connection (set_state "fail");;
       setattr connection (set_handle None);;
       raise (Exc FailedToConnectException (str_exc exc)));;
    (if withMaterialization credentials then
       try_except
         (logger_debug ":P Set EnableWithClauseMaterialization";;
          h ← getattr connection handle;
          cur ← handle_cursor h;
          cursor_execute cur
            "ALTER SESSION SET PARAMETER EnableWithClauseMaterialization=1";;
          cursor_close cur)
         (λ exc,
          logger_debug (":P Could not EnableWithClauseMaterialization: "
                        +:+ str_exc exc))
     else mret tt);;
    mret connection.

(** *** [get_response] *)

Definition get_response (cursor : Cursor) : M W AdapterResponse :=
  m ← cursor_message cursor;
  n ← peek (Cursor_rowcount cursor);
  mret {| _message := str_message m; rows_affected := n |}.

(** *** [get_result_from_cursor] *)

Definition get_result_from_cursor (fuel : nat) (cursor : Cursor)
  : M W Table :=
  description ← peek (Cursor_description cursor);
  '(column_names, data) ←
    match description with
    | Some description =>
        let column_names := column_name <$> description in
        rows ← cursor_fetchall cursor;
        while fuel
          (v ← cursor_nextset cursor; mret (truthy v))
          (check ← cursor_message cursor; mret tt);;
        mret (process_results column_names rows)
    | None => mret ([], [])
    end;
  mret (table_from_data_flat data column_names).

(** *** [execute] *)

Definition execute (fuel : nat) (sql : string) (auto_begin fetch : bool)
  : M W (AdapterResponse * Table) :=
  let sql := _add_query_comment sql in
  '(_, cursor) ← self_add_query sql auto_begin;
  response ← get_response cursor;
  table ←
    (if fetch then get_result_from_cursor fuel cursor
     else
       let table := empty_table in
       try_except
         (while fuel
            (v ← cursor_nextset cursor; mret (truthy v))
            (check ← cursor_message cursor;
             logger_debug ("Cursor message is: " +:+ str_message check)))
         (λ exc,
          logger_debug (":P Error: " +:+ str_exc exc);;
          self_release;;
          raise (Exc DatabaseException (str_exc exc)));;
       mret table);
  mret (response, table).

(** *** [exception_handler] *)

(** [with self.exception_handler(sql): body] *)
Definition exception_handler {A} (sql : string) (body : M W A) : M W A :=
  try_except body
    (λ exc,
     if is_DatabaseError exc then
       logger_debug (":P Database error: " +:+ str_exc exc);;
       self_release;;
       raise (Exc DatabaseException (str_exc exc))
     else
       logger_debug (":P Error: " +:+ str_exc exc);;
       self_release;;
       raise (Exc RuntimeException (str_exc exc))).
End Adapter.

(** ** Runs of the result-set cursor *)

(** How a run of [cursor.nextset()] calls ends. *)
Inductive drain_end :=
  | Drained
  | Failed (exc : exception).

Section Drain.
Context {W : Type} `{!VerticaPython W}.

(** [nextset_run n cur w]: from the world [w], [n] calls of
    [cur.nextset()] return a truthy value and the next call ends the
    run, with a falsy value ([Drained]) or by raising ([Failed]).  The
    world the last call leaves is returned too.  [n] is the number of
    result sets that remain. *)
Fixpoint nextset_run (n : nat) (cur : Cursor) (w : W)
  : option (drain_end * W) :=
  match Cursor_nextset cur w with
  | (Returns v, w') =>
      if truthy v then
        match n with
        | O => None
        | S n' => nextset_run n' cur w'
        end
      else
        match n with
        | O => Some (Drained, w')
        | S _ => None
        end
  | (Raises exc, w') =>
      match n with
      | O => Some (Failed exc, w')
      | S _ => None
      end
  end.

(** The calls such a run consists of: [n] times [nextset] and what the
    loop body does in the world [nextset] left, then the last
    [nextset]. *)
Fixpoint drain_events (per_iter : W → list event) (n : nat) (cur : Cursor)
    (w : W) : list event :=
  EvNextset cur ::
  match n with
  | O => []
  | S n' =>
      let w' := (Cursor_nextset cur w).2 in
      per_iter w' ++ drain_events per_iter n' cur w'
  end.

Definition is_nextset (ev : event) : bool :=
  match ev with EvNextset _ => true | _ => false end.

Definition is_message (ev : event) : bool :=
  match ev with EvMessage _ => true | _ => false end.

Definition result_of_end (e : drain_end) : result unit :=
  match e with
  | Drained => Ok tt
  | Failed exc => Raise exc
  end.

(** What one turn of the loop of [get_result_from_cursor] adds to the
    trace, and one turn of the loop of [execute], in the world [w] the
    [nextset] call left. *)
Definition fetch_iter (cur : Cursor) (w : W) : list event :=
  [EvMessage cur].

Definition execute_iter (cur : Cursor) (w : W) : list event :=
  [EvMessage cur;
   EvLog ("Cursor message is: " +:+ str_message (Cursor_message cur w))].
End Drain.

(** ** What [open] does after [connect], by cases *)

Section Summaries.
Context {W : Type} `{!VerticaPython W} `{!Framework W}.

(** The statement [open] sends when [withMaterialization] is set. *)
Definition alter_session : string :=
  "ALTER SESSION SET PARAMETER EnableWithClauseMaterialization=1".

Definition could_not (exc : exception) : event :=
  EvLog (":P Could not EnableWithClauseMaterialization: " +:+ str_exc exc).

(** The world and the calls the [withMaterialization] block leaves
    behind, by cases on what the driver answers to [cursor()],
    [execute] and [close]. *)
Definition materialization_effect (h : Handle) (w : W) : W * list event :=
  let start :=
    [EvLog ":P Set EnableWithClauseMaterialization"; EvCursor h] in
  match Connection_cursor h w with
  | (Raises exc, w2) => (w2, start ++ [could_not exc])
  | (Returns cur, w2) =>
      match Cursor_execute cur alter_session w2 with
      | (Raises exc, w3) =>
          (w3, start ++ [EvExecute cur alter_session; could_not exc])
      | (Returns _, w3) =>
          match Cursor_close cur w3 with
          | (Raises exc, w4) =>
              (w4, start ++ [EvExecute cur alter_session; EvClose cur;
                             could_not exc])
          | (Returns _, w4) =>
              (w4, start ++ [EvExecute cur alter_session; EvClose cur])
          end
      end
  end.

Definition after_connect (mat : bool) (h : Handle) (w : W)
  : W * list event :=
  if mat then materialization_effect h w else (w, []).

(** A connection object after the two assignments [connection.state = v]
    and [connection.handle = h]. *)
Definition with_state_handle (v : string) (h : option Handle)
    (o : Connection) : Connection :=
  {| state := v; handle := h; credentials := credentials o |}.

(** The connection parameters as the specification lists them. *)
Definition conn_info_spec (credentials : verticaCredentials)
  : gmap string pyvalue :=
  list_to_map
    [("host", PyStr (host credentials));
     ("port", PyInt (port credentials));
     ("user", PyStr (username credentials));
     ("password", PyStr (password credentials));
     ("database", PyStr (database credentials));
     ("connection_timeout", PyInt (timeout credentials));
     ("connection_load_balance", PyBool true);
     ("session_label", PyStr ("dbt_" +:+ username credentials))].

(** The table [get_result_from_cursor] builds from a description and
    the fetched rows. *)
Definition table_of (desc : list column) (rs : list row) : Table :=
  let pr := process_results (column_name <$> desc) rs in
  table_from_data_flat pr.2 pr.1.

(** The response [get_response] builds in the world [w]. *)
Definition response_of (cur : Cursor) (w : W) : AdapterResponse :=
  {| _message := str_message (Cursor_message cur w);
     rows_affected := Cursor_rowcount cur w |}.

(** The class [exception_handler] wraps an exception in, and the log
    line it writes. *)
Definition wrapped_class (exc : exception) : exception_class :=
  if is_DatabaseError exc then DatabaseException else RuntimeException.

Definition handler_log (exc : exception) : event :=
  EvLog ((if is_DatabaseError exc then ":P Database error: "
          else ":P Error: ") +:+ str_exc exc).

(** A driver call that [open] makes on the connection [c] raises: the
    [connect] call or, when it returned and [withMaterialization] is
    set, one of [cursor()], [execute] and [close]. *)
Definition failure_inside_open (st : State W) (c : loc) : Prop :=
  ∃ conn, objects st !! c = Some conn ∧ state conn ≠ "open" ∧
    match connect (conn_info (credentials conn)) (world st) with
    | (Raises _, _) => True
    | (Returns h, w1) =>
        withMaterialization (credentials conn) = true ∧
        match Connection_cursor h w1 with
        | (Raises _, _) => True
        | (Returns cur, w2) =>
            match Cursor_execute cur alter_session w2 with
            | (Raises _, _) => True
            | (Returns _, w3) =>
                match Cursor_close cur w3 with
                | (Raises _, _) => True
                | (Returns _, _) => False
                end
            end
        end
    end.
End Summaries.

(** ** A scripted world

    A concrete outside world, to run the adapter on: the driver answers
    from a script. *)
Module Scripted.
Record script := {
  on_connect : outcome Handle;
  on_cursor : outcome Cursor;
  on_execute : outcome unit;
  on_close : outcome unit;
  on_add_query : outcome (loc * Cursor);
  on_fetchall : outcome (list row);
  described : option (list column);
  pending : list (outcome pyvalue);
  released : nat
}.

Definition with_pending (l : list (outcome pyvalue)) (w : script) : script :=
  {| on_connect := on_connect w; on_cursor := on_cursor w;
     on_execute := on_execute w; on_close := on_close w;
     on_add_query := on_add_query w; on_fetchall := on_fetchall w;
     described := described w; pending := l; released := released w |}.

Definition with_released (n : nat) (w : script) : script :=
  {| on_connect := on_connect w; on_cursor := on_cursor w;
     on_execute := on_execute w; on_close := on_close w;
     on_add_query := on_add_query w; on_fetchall := on_fetchall w;
     described := described w; pending := pending w; released := n |}.

Global Instance driver : VerticaPython script := {|
  connect _ w := (on_connect w, w);
  Connection_cursor _ w := (on_cursor w, w);
  Cursor_execute _ _ w := (on_execute w, w);
  Cursor_close _ w := (on_close w, w);
  Cursor_fetchall _ w := (on_fetchall w, w);
  Cursor_nextset _ w :=
    match pending w with
    | [] => (Returns (PyBool false), w)
    | o :: l => (o, with_pending l w)
    end;
  Cursor_description _ w := described w;
  Cursor_message _ w :=
    match pending w with
    | [] => Message "ReadyForQuery"
    | _ :: _ => Message "CommandComplete"
    end;
  Cursor_rowcount _ _ := (-1)%Z
|}.

Global Instance framework : Framework script := {|
  str_exc := exc_message;
  release w := with_released (S (released w)) w;
  _add_query_comment sql := "/* dbt */ " +:+ sql;
  add_query _ _ w := (on_add_query w, w);
  process_results names rs :=
    (names, (λ r : row, list_to_map (zip names r)) <$> rs)
|}.

Definition h0 : Handle := mkHandle 7.
Definition cur0 : Cursor := mkCursor 3.

Definition refused : exception :=
  Exc VerticaDatabaseError "Failed to establish a connection".
Definition rejected : exception :=
  Exc VerticaDatabaseError "Invalid parameter".
Definition timed_out : exception :=
  Exc (OtherException "TimeoutError") "timed out".

Definition description0 : list column :=
  [("id", [PyInt 6]); ("name", [PyInt 9])].
Definition rows0 : list row :=
  [[PyInt 1; PyStr "a"]; [PyInt 2; PyStr "b"]].

(** A world by what [connect] and [execute] answer and by the answers
    of [nextset] to come. *)
Definition world_with (c : outcome Handle) (x : outcome unit)
    (p : list (outcome pyvalue)) : script :=
  {| on_connect := c; on_cursor := Returns cur0;
     on_execute := x; on_close := Returns tt;
     on_add_query := Returns (0, cur0);
     on_fetchall := Returns rows0;
     described := Some description0;
     pending := p;
     released := 0 |}.

(** Everything succeeds and two more result sets are pending. *)
Definition w_ok : script :=
  world_with (Returns h0) (Returns tt)
             [Returns (PyBool true); Returns (PyBool true)].

(** [connect] raises. *)
Definition w_refused : script :=
  world_with (Raises refused) (Returns tt) [].

(** [connect] returns and every [execute] raises. *)
Definition w_rejecting : script :=
  world_with (Returns h0) (Raises rejected) [].

(** The second [nextset] raises. *)
Definition w_broken : script :=
  world_with (Returns h0) (Returns tt)
             [Returns (PyBool true); Raises timed_out].

Definition creds (mat : bool) : verticaCredentials :=
  {| host := "db.example.org"; database := "analytics"; schema := "public";
     username := "dbt"; password := "secret"; port := default_port;
     timeout := default_timeout; withMaterialization := mat |}.

Definition fresh (mat : bool) : Connection :=
  {| state := "init"; handle := None; credentials := creds mat |}.

Definition established : Connection :=
  {| state := "open"; handle := Some h0; credentials := creds false |}.

(** The state in which the connection [conn] is the object 0 and
    nothing has been called yet. *)
Definition st_of (w : script) (conn : Connection) : State script :=
  mkState w {[ 0 := conn ]} [].
End Scripted.

(** ** [cancel] *)

(** The [cancel] method of the driver's connection handle. *)
Class VerticaCancel (W : Type) := {
  Connection_cancel : Handle → W → outcome unit * W
}.

Section Cancel.
Context {W : Type} `{!VerticaCancel W}.

(** [h.cancel()], where [h] is what [connection.handle] holds. *)
Definition handle_cancel (h : option Handle) : M W unit :=
  match h with
  | Some h => call (Connection_cancel h)
  | None =>
      raise (Exc (OtherException "AttributeError")
                 "'NoneType' object has no attribute 'cancel'")
  end.

Definition cancel (connection : loc) : M W unit :=
  logger_debug ":P Cancel query";;
  h ← getattr connection handle;
  handle_cancel h.
End Cancel.

Definition is_fetchall (ev : event) : bool :=
  match ev with EvFetchall _ => true | _ => false end.

Definition is_close (ev : event) : bool :=
  match ev with EvClose _ => true | _ => false end.

Definition is_execute (ev : event) : bool :=
  match ev with EvExecute _ _ => true | _ => false end.

(** The fields of the credentials that reach the driver. *)
Definition driver_fields (c : verticaCredentials)
  : string * Z * string * string * string * Z :=
  (host c, port c, username c, password c, database c, timeout c).

Module ScriptedCancel.
(** In the scripted world [cancel] drops the result sets to come. *)
Global Instance canceller : VerticaCancel Scripted.script := {|
  Connection_cancel _ w := (Returns tt, Scripted.with_pending [] w)
|}.
End ScriptedCancel.

(** More scripted worlds: a statement without result columns, a cursor
    whose [fetchall] raises, a framework whose [add_query] raises. *)
Module ScriptedMore.
Import Scripted.

Definition world_like (d : option (list column)) (f : outcome (list row))
    (q : outcome (loc * Cursor)) (p : list (outcome pyvalue)) : script :=
  {| on_connect := Returns h0; on_cursor := Returns cur0;
     on_execute := Returns tt; on_close := Returns tt;
     on_add_query := q;
     on_fetchall := f;
     described := d;
     pending := p;
     released := 0 |}.

Definition lost : exception :=
  Exc VerticaDatabaseError "Connection lost".

Definition w_ddl : script :=
  world_like None (Returns []) (Returns (0, cur0)) [Returns (PyBool true)].

Definition w_unfetchable : script :=
  world_like (Some description0) (Raises lost) (Returns (0, cur0)) [].

Definition w_no_query : script :=
  world_like (Some description0) (Returns rows0)
             (Raises (Exc DatabaseException "Database Error")) [].

(** Two connection objects in the store. *)
Definition st_two : State script :=
  mkState w_ok {[ 0 := fresh false; 1 := established ]} [].
End ScriptedMore.

(** A world in which [connect] fails a given number of times and
    succeeds from then on. *)
Module Flaky.
#[export] Instance driver : VerticaPython nat := {|
  connect _ n :=
    match n with
    | O => (Returns Scripted.h0, O)
    | S k => (Raises Scripted.refused, k)
    end;
  Connection_cursor _ n := (Returns Scripted.cur0, n);
  Cursor_execute _ _ n := (Returns tt, n);
  Cursor_close _ n := (Returns tt, n);
  Cursor_fetchall _ n := (Returns [], n);
  Cursor_nextset _ n := (Returns (PyBool false), n);
  Cursor_description _ _ := None;
  Cursor_message _ _ := NoMessage;
  Cursor_rowcount _ _ := (-1)%Z
|}.

#[export] Instance framework : Framework nat := {|
  str_exc := exc_message;
  release n := n;
  _add_query_comment sql := sql;
  add_query _ _ n := (Returns (0, Scripted.cur0), n);
  process_results names rs := (names, [])
|}.

Definition st_once : State nat :=
  mkState 1 {[ 0 := Scripted.fresh false ]} [].
End Flaky.

(** * Properties *)

Ltac unfold_monad :=
  unfold mbind, mret, M_bind, M_ret, bind, ret, raise, try_except, emit,
    call, peek, getattr, setattr.

(** ** [open] *)

Section OpenFacts.
Context {W : Type} `{!VerticaPython W} `{!Framework W}.

Lemma eqb_open_false (s : string) :
  s ≠ "open" → String.eqb s "open" = false.
Proof. intros Hne. apply String.eqb_neq. exact Hne. Qed.

Lemma store_twice (objs : gmap loc Connection) (c : loc) (conn : Connection)
    (v : string) (h : option Handle) :
  objs !! c = Some conn →
  alter (set_handle h) c (alter (set_state v) c objs)
  = <[c := with_state_handle v h conn]> objs.
Proof.
  intros Hc. rewrite alter_alter_eq.
  rewrite (alter_alt_Some _ _ _ _ Hc). reflexivity.
Qed.

(** The early return. *)
Lemma open_already_open (st : State W) (c : loc) (conn : Connection) :
  objects st !! c = Some conn →
  state conn = "open" →
  open c st =
    (Ok c, mkState (world st) (objects st)
                   (trace st ++ [EvLog ":P Connection is already open"])).
Proof.
  intros Hc Hst. unfold open, logger_debug. unfold_monad.
  rewrite Hc, Hst. reflexivity.
Qed.

(** [connect] raises: the [except] clause runs. *)
Lemma open_connect_raises (st : State W) (c : loc) (conn : Connection)
    (exc : exception) (w1 : W) :
  objects st !! c = Some conn →
  state conn ≠ "open" →
  connect (conn_info (credentials conn)) (world st) = (Raises exc, w1) →
  open c st =
    (Raise (Exc FailedToConnectException (str_exc exc)),
     mkState w1
       (<[c := with_state_handle "fail" None conn]> (objects st))
       (trace st ++
        [EvConnect (conn_info (credentials conn));
         EvLog (":P Error connecting to database: " +:+ str_exc exc)])).
Proof.
  intros Hc Hst Hconn. unfold open, vertica_python_connect, logger_debug.
  unfold_monad. rewrite Hc, (eqb_open_false _ Hst). simpl.
  rewrite Hc. simpl. rewrite Hconn. simpl.
  rewrite (store_twice _ _ _ _ _ Hc), <- app_assoc. reflexivity.
Qed.

(** [connect] returns: the handle is stored and the optional block
    runs, whatever the driver answers there. *)
Lemma open_connect_returns (st : State W) (c : loc) (conn : Connection)
    (h : Handle) (w1 : W) :
  objects st !! c = Some conn →
  state conn ≠ "open" →
  connect (conn_info (credentials conn)) (world st) = (Returns h, w1) →
  open c st =
    (Ok c,
     mkState (after_connect (withMaterialization (credentials conn)) h w1).1
       (<[c := with_state_handle "open" (Some h) conn]> (objects st))
       (trace st ++
        [EvConnect (conn_info (credentials conn));
         EvLog (":P Connected to database: "
                +:+ database (credentials conn) +:+ " at "
                +:+ host (credentials conn))] ++
        (after_connect (withMaterialization (credentials conn)) h w1).2)).
Proof.
  intros Hc Hst Hconn.
  unfold open, vertica_python_connect, logger_debug, handle_cursor,
    cursor_execute, cursor_close.
  unfold_monad. rewrite Hc, (eqb_open_false _ Hst). simpl.
  rewrite Hc. simpl. rewrite Hconn. simpl.
  rewrite (store_twice _ _ _ _ _ Hc).
  unfold after_connect, materialization_effect.
  destruct (withMaterialization (credentials conn)); simpl.
  - rewrite lookup_insert_eq. simpl.
    fold alter_session.
    destruct (Connection_cursor h w1) as [[cur|exc] w2]; simpl.
    + destruct (Cursor_execute cur alter_session w2) as [[[]|exc] w3]; simpl.
      * destruct (Cursor_close cur w3) as [[[]|exc] w4]; simpl;
          repeat rewrite <- app_assoc; reflexivity.
      * repeat rewrite <- app_assoc; reflexivity.
    + repeat rewrite <- app_assoc; reflexivity.
  - repeat rewrite <- app_assoc; reflexivity.
Qed.

(** The optional block never calls [connect]. *)
Lemma after_connect_no_connect (mat : bool) (h : Handle) (w : W) :
  List.filter is_connect (after_connect mat h w).2 = [].
Proof.
  unfold after_connect, materialization_effect, could_not.
  destruct mat; [|reflexivity].
  destruct (Connection_cursor h w) as [[cur|exc] w2]; [|reflexivity].
  destruct (Cursor_execute cur alter_session w2) as [[[]|exc] w3];
    [|reflexivity].
  destruct (Cursor_close cur w3) as [[[]|exc] w4]; reflexivity.
Qed.

Lemma conn_info_exact (credentials : verticaCredentials) :
  conn_info credentials = conn_info_spec credentials.
Proof.
  apply map_eq. intros k. unfold conn_info, conn_info_spec. simpl.
  rewrite !lookup_insert. repeat case_decide; subst; try done.
Qed.
End OpenFacts.

Section OpenClaims.
Context {W : Type} `{!VerticaPython W} `{!Framework W}.

(** C2. For every connection whose state is not 'open', [open] builds
    the connection parameters from the credentials as exactly the
    dictionary with the eight items host, port, user, password,
    database, connection_timeout, connection_load_balance (True) and
    session_label ('dbt_' followed by the user name), and passes it to
    the driver's [connect]: that call is the first thing [open] does to
    the outside world, it is the only [connect] call, and what it
    answers decides how [open] ends. *)
Theorem open_passes_conn_info (st : State W) (c : loc) (conn : Connection) :
  objects st !! c = Some conn →
  state conn ≠ "open" →
  conn_info (credentials conn) = conn_info_spec (credentials conn) ∧
  ∃ evs,
    trace (open c st).2
    = trace st ++ EvConnect (conn_info_spec (credentials conn)) :: evs ∧
    List.filter is_connect evs = [] ∧
    match connect (conn_info_spec (credentials conn)) (world st) with
    | (Returns h, _) =>
        (open c st).1 = Ok c ∧
        objects (open c st).2 !! c
        = Some (with_state_handle "open" (Some h) conn)
    | (Raises exc, _) =>
        (open c st).1 = Raise (Exc FailedToConnectException (str_exc exc))
    end.
Proof.
  intros Hc Hst. split; [apply conn_info_exact|].
  rewrite <- conn_info_exact.
  destruct (connect (conn_info (credentials conn)) (world st))
    as [[h|exc] w1] eqn:Hconn.
  - rewrite (open_connect_returns st c conn h w1 Hc Hst Hconn). simpl.
    eexists. split; [reflexivity|]. split.
    + simpl. apply after_connect_no_connect.
    + split; [reflexivity|]. apply lookup_insert_eq.
  - rewrite (open_connect_raises st c conn exc w1 Hc Hst Hconn). simpl.
    eexists. split; [reflexivity|]. split; reflexivity.
Qed.


(** C7. No retry: for every call to [open] on a connection that is not
    already open, the calls [open] adds to the trace hold exactly one
    [connect] (so at most one), and when that call raises, [open] logs
    the error and raises FailedToConnectException at once: no other
    call into the driver follows. *)
Theorem open_connects_at_most_once (st : State W) (c : loc)
    (conn : Connection) :
  objects st !! c = Some conn →
  state conn ≠ "open" →
  ∃ evs,
    trace (open c st).2 = trace st ++ evs ∧
    length (List.filter is_connect evs) = 1 ∧
    length (List.filter is_connect evs) ≤ 1 ∧
    ∀ exc w1,
      connect (conn_info (credentials conn)) (world st) = (Raises exc, w1) →
      (open c st).1 = Raise (Exc FailedToConnectException (str_exc exc)) ∧
      world (open c st).2 = w1 ∧
      evs = [EvConnect (conn_info (credentials conn));
             EvLog (":P Error connecting to database: " +:+ str_exc exc)].
Proof.
  intros Hc Hst.
  destruct (connect (conn_info (credentials conn)) (world st))
    as [[h|exc] w1] eqn:Hconn.
  - rewrite (open_connect_returns st c conn h w1 Hc Hst Hconn). simpl.
    eexists. split; [reflexivity|]. simpl.
    rewrite after_connect_no_connect. simpl.
    split; [reflexivity|]. split; [lia|].
    intros exc w1' Habs. discriminate Habs.
  - rewrite (open_connect_raises st c conn exc w1 Hc Hst Hconn). simpl.
    eexists. split; [reflexivity|]. simpl.
    split; [reflexivity|]. split; [lia|].
    intros exc' w1' [= <- <-]. repeat split; reflexivity.
Qed.

(** C8. [open] is idempotent on open connections: for every connection
    whose state equals 'open', [open] returns the same connection
    object, leaves the store of connection objects (so state and handle)
    and the outside world as they are, adds one log line and no
    [connect] call to the trace, and a second [open] does the same. *)
Theorem open_idempotent_on_open_connection (st : State W) (c : loc)
    (conn : Connection) :
  objects st !! c = Some conn →
  state conn = "open" →
  (open c st).1 = Ok c ∧
  objects (open c st).2 = objects st ∧
  objects (open c st).2 !! c = Some conn ∧
  world (open c st).2 = world st ∧
  trace (open c st).2 = trace st ++ [EvLog ":P Connection is already open"] ∧
  List.filter is_connect (trace (open c st).2)
  = List.filter is_connect (trace st) ∧
  (open c (open c st).2).1 = Ok c ∧
  objects (open c (open c st).2).2 = objects st.
Proof.
  intros Hc Hopen.
  rewrite (open_already_open st c conn Hc Hopen). simpl.
  rewrite (open_already_open
             (mkState (world st) (objects st)
                      (trace st ++ [EvLog ":P Connection is already open"]))
             c conn Hc Hopen). simpl.
  repeat split; auto.
  rewrite List.filter_app. simpl. apply app_nil_r.
Qed.

(** C9. When [credentials.withMaterialization] is True and the ALTER
    SESSION statement raises an exception (any exception), [open]
    swallows it: it logs the error and still returns the connection,
    whose state is 'open'.  A failure anywhere in the materialization
    block ([cursor()], [execute], [close]) never fails [open]. *)
Theorem open_swallows_materialization_failure (st : State W) (c : loc)
    (conn : Connection) (h : Handle) (w1 : W) :
  objects st !! c = Some conn →
  state conn ≠ "open" →
  withMaterialization (credentials conn) = true →
  connect (conn_info (credentials conn)) (world st) = (Returns h, w1) →
  (open c st).1 = Ok c ∧
  objects (open c st).2 !! c
  = Some (with_state_handle "open" (Some h) conn) ∧
  ∀ cur w2 exc w3,
    Connection_cursor h w1 = (Returns cur, w2) →
    Cursor_execute cur alter_session w2 = (Raises exc, w3) →
    world (open c st).2 = w3 ∧
    trace (open c st).2
    = trace st ++
      [EvConnect (conn_info (credentials conn));
       EvLog (":P Connected to database: "
              +:+ database (credentials conn) +:+ " at "
              +:+ host (credentials conn));
       EvLog ":P Set EnableWithClauseMaterialization";
       EvCursor h;
       EvExecute cur alter_session;
       EvLog (":P Could not EnableWithClauseMaterialization: "
              +:+ str_exc exc)].
Proof.
  intros Hc Hst Hmat Hconn.
  rewrite (open_connect_returns st c conn h w1 Hc Hst Hconn). simpl.
  split; [reflexivity|]. split; [apply lookup_insert_eq|].
  intros cur w2 exc w3 Hcur Hexe.
  rewrite Hmat. unfold after_connect, materialization_effect.
  rewrite Hcur, Hexe. simpl. split; reflexivity.
Qed.
End OpenClaims.

(** ** The draining loop *)

Section DrainFacts.
Context {W : Type} `{!VerticaPython W} `{!Framework W}.

(** One test of the loop condition [cursor.nextset()]. *)
Lemma nextset_test (cur : Cursor) (s : State W) :
  (v ← cursor_nextset cur; mret (truthy v)) s
  = match Cursor_nextset cur (world s) with
    | (Returns v, w1) =>
        (Ok (truthy v),
         mkState w1 (objects s) (trace s ++ [EvNextset cur]))
    | (Raises exc, w1) =>
        (Raise exc, mkState w1 (objects s) (trace s ++ [EvNextset cur]))
    end.
Proof.
  unfold cursor_nextset. unfold_monad. simpl.
  destruct (Cursor_nextset cur (world s)) as [[v|exc] w1]; reflexivity.
Qed.

Lemma while_step (fuel : nat) (cond : M W bool) (body : M W unit)
    (s : State W) :
  while (S fuel) cond body s
  = match cond s with
    | (Ok true, s1) =>
        match body s1 with
        | (Ok _, s2) => while fuel cond body s2
        | (Raise exc, s2) => (Raise exc, s2)
        | (OutOfFuel, s2) => (OutOfFuel, s2)
        end
    | (Ok false, s1) => (Ok tt, s1)
    | (Raise exc, s1) => (Raise exc, s1)
    | (OutOfFuel, s1) => (OutOfFuel, s1)
    end.
Proof.
  simpl. unfold bind, ret.
  destruct (cond s) as [[[|]|exc|] s1]; reflexivity.
Qed.

(** The loop over [cursor.nextset()], for a body that leaves the world
    alone and adds the calls [per_iter] to the trace: on a cursor whose
    run of [nextset] calls ends after [n] result sets, the loop ends
    the way the run does, given fuel for [n + 1] tests. *)
Lemma while_nextset (cur : Cursor) (body : M W unit)
    (per_iter : W → list event) :
  (∀ s, body s = (Ok tt, mkState (world s) (objects s)
                                 (trace s ++ per_iter (world s)))) →
  ∀ n fuel s e w',
    n < fuel →
    nextset_run n cur (world s) = Some (e, w') →
    while fuel (v ← cursor_nextset cur; mret (truthy v)) body s
    = (result_of_end e,
       mkState w' (objects s)
               (trace s ++ drain_events per_iter n cur (world s))).
Proof.
  intros Hbody. induction n as [|n IH]; intros fuel s e w' Hlt Hrun;
    (destruct fuel as [|fuel]; [lia|]);
    rewrite while_step, nextset_test; simpl in *;
    destruct (Cursor_nextset cur (world s)) as [[v|exc] w1]; simpl in *;
    try discriminate.
  - destruct (truthy v); [discriminate|].
    injection Hrun as <- <-. reflexivity.
  - injection Hrun as <- <-. reflexivity.
  - destruct (truthy v); [|discriminate].
    rewrite Hbody. simpl.
    rewrite (IH fuel (mkState w1 _ _) e w' ltac:(lia) Hrun). simpl.
    rewrite <- !app_assoc. reflexivity.
Qed.

(** Conversely the loop ends only the way a run of [nextset] calls
    does: normally when a call returns a falsy value after [n] truthy
    ones, with an exception when a call raises. *)
Lemma while_nextset_ends (cur : Cursor) (body : M W unit)
    (per_iter : W → list event) :
  (∀ s, body s = (Ok tt, mkState (world s) (objects s)
                                 (trace s ++ per_iter (world s)))) →
  ∀ fuel s r s',
    while fuel (v ← cursor_nextset cur; mret (truthy v)) body s = (r, s') →
    r ≠ OutOfFuel →
    ∃ n e, n < fuel ∧ r = result_of_end e ∧
           nextset_run n cur (world s) = Some (e, world s').
Proof.
  intros Hbody. induction fuel as [|fuel IH]; intros s r s' Hrun Hr.
  - simpl in Hrun. injection Hrun as <- <-. contradiction.
  - rewrite while_step, nextset_test in Hrun.
    destruct (Cursor_nextset cur (world s)) as [[v|exc] w1] eqn:Hnext.
    + destruct (truthy v) eqn:Hv.
      * rewrite Hbody in Hrun. simpl in Hrun.
        destruct (IH _ _ _ Hrun Hr) as (n & e & Hlt & -> & Hn).
        exists (S n), e. simpl in *. rewrite Hnext, Hv.
        repeat split; [lia|exact Hn].
      * injection Hrun as <- <-. exists 0, Drained. simpl.
        rewrite Hnext, Hv. repeat split. lia.
    + injection Hrun as <- <-. exists 0, (Failed exc). simpl.
      rewrite Hnext. repeat split. lia.
Qed.

(** A run holds one [nextset] call more than result sets remain, and
    one body per result set. *)
Lemma drain_events_nextsets (per_iter : W → list event) (cur : Cursor) :
  (∀ w, List.filter is_nextset (per_iter w) = []) →
  ∀ n w, length (List.filter is_nextset (drain_events per_iter n cur w))
         = S n.
Proof.
  intros Hp. induction n as [|n IH]; intros w; simpl; [reflexivity|].
  rewrite List.filter_app, Hp. simpl. rewrite IH. reflexivity.
Qed.

Lemma drain_events_messages (per_iter : W → list event) (cur : Cursor) :
  (∀ w, length (List.filter is_message (per_iter w)) = 1) →
  ∀ n w, length (List.filter is_message (drain_events per_iter n cur w))
         = n.
Proof.
  intros Hp. induction n as [|n IH]; intros w; simpl; [reflexivity|].
  rewrite List.filter_app, length_app, Hp, IH. reflexivity.
Qed.
End DrainFacts.

(** ** [get_result_from_cursor], [execute] and [exception_handler] *)

Section ExecuteFacts.
Context {W : Type} `{!VerticaPython W} `{!Framework W}.

Lemma fetch_body (cur : Cursor) (s : State W) :
  (check ← cursor_message cur; mret tt) s
  = (Ok tt, mkState (world s) (objects s)
                    (trace s ++ fetch_iter cur (world s))).
Proof. reflexivity. Qed.

Lemma execute_body (cur : Cursor) (s : State W) :
  (check ← cursor_message cur;
   logger_debug ("Cursor message is: " +:+ str_message check)) s
  = (Ok tt, mkState (world s) (objects s)
                    (trace s ++ execute_iter cur (world s))).
Proof.
  unfold cursor_message, logger_debug, execute_iter. unfold_monad. simpl.
  rewrite <- app_assoc. reflexivity.
Qed.

Lemma get_result_from_cursor_run (fuel n : nat) (cur : Cursor)
    (st : State W) (desc : list column) (rs : list row) (w1 w2 : W)
    (e : drain_end) :
  Cursor_description cur (world st) = Some desc →
  Cursor_fetchall cur (world st) = (Returns rs, w1) →
  nextset_run n cur w1 = Some (e, w2) →
  n < fuel →
  get_result_from_cursor fuel cur st
  = (match e with
     | Drained => Ok (table_of desc rs)
     | Failed exc => Raise exc
     end,
     mkState w2 (objects st)
       (trace st ++ EvFetchall cur :: drain_events (fetch_iter cur) n cur w1)).
Proof.
  intros Hdesc Hfetch Hrun Hlt.
  unfold get_result_from_cursor, cursor_fetchall.
  unfold mbind at 1, M_bind at 1, bind at 1, peek. rewrite Hdesc.
  unfold mbind at 1, M_bind at 1, bind at 1.
  unfold mbind at 1, M_bind at 1, bind at 1.
  unfold mbind at 1, M_bind at 1, bind at 1, emit, call. simpl.
  rewrite Hfetch.
  unfold mbind at 1, M_bind at 1, bind at 1.
  rewrite (while_nextset cur _ (fetch_iter cur) (fetch_body cur) n fuel
             (mkState w1 _ _) e w2 Hlt Hrun). simpl.
  unfold table_of.
  destruct e; simpl;
    [destruct (process_results (column_name <$> desc) rs)|];
    rewrite <- app_assoc; reflexivity.
Qed.

Lemma get_response_run (cur : Cursor) (s : State W) :
  get_response cur s
  = (Ok (response_of cur (world s)),
     mkState (world s) (objects s) (trace s ++ [EvMessage cur])).
Proof. reflexivity. Qed.

(** [execute] without fetching, on a cursor whose run of [nextset]
    calls ends after [n] result sets. *)
Lemma execute_run (fuel n : nat) (st : State W) (sql : string)
    (auto_begin : bool) (conn : loc) (cur : Cursor) (w1 w2 : W)
    (e : drain_end) :
  add_query (_add_query_comment sql) auto_begin (world st)
  = (Returns (conn, cur), w1) →
  nextset_run n cur w1 = Some (e, w2) →
  n < fuel →
  execute fuel sql auto_begin false st
  = match e with
    | Drained =>
        (Ok (response_of cur w1, empty_table),
         mkState w2 (objects st)
           (trace st ++
            [EvAddQuery (_add_query_comment sql) auto_begin; EvMessage cur]
            ++ drain_events (execute_iter cur) n cur w1))
    | Failed exc =>
        (Raise (Exc DatabaseException (str_exc exc)),
         mkState (release w2) (objects st)
           (trace st ++
            [EvAddQuery (_add_query_comment sql) auto_begin; EvMessage cur]
            ++ drain_events (execute_iter cur) n cur w1
            ++ [EvLog (":P Error: " +:+ str_exc exc); EvRelease]))
    end.
Proof.
  intros Hadd Hrun Hlt.
  unfold execute, self_add_query.
  unfold mbind at 1, M_bind at 1, bind at 1.
  unfold mbind at 1, M_bind at 1, bind at 1, emit, call. simpl.
  rewrite Hadd.
  unfold mbind at 1, M_bind at 1, bind at 1. rewrite get_response_run.
  unfold mbind at 1, M_bind at 1, bind at 1.
  unfold mbind at 1, M_bind at 1, bind at 1, try_except.
  rewrite (while_nextset cur _ (execute_iter cur) (execute_body cur) n fuel
             (mkState w1 _ _) e w2 Hlt Hrun).
  destruct e; simpl; unfold logger_debug, self_release; unfold_monad;
    simpl; rewrite <- ?app_assoc; simpl; repeat f_equal;
    rewrite <- ?app_assoc; reflexivity.
Qed.

Lemma exception_handler_raises {A} (sql : string) (body : M W A)
    (s s1 : State W) (exc : exception) :
  body s = (Raise exc, s1) →
  exception_handler sql body s
  = (Raise (Exc (wrapped_class exc) (str_exc exc)),
     mkState (release (world s1)) (objects s1)
             (trace s1 ++ [handler_log exc; EvRelease])).
Proof.
  intros Hbody. unfold exception_handler, try_except. rewrite Hbody.
  unfold wrapped_class, handler_log, logger_debug, self_release.
  unfold_monad.
  destruct (is_DatabaseError exc); simpl; rewrite <- app_assoc;
    reflexivity.
Qed.

Lemma exception_handler_passes {A} (sql : string) (body : M W A)
    (s s1 : State W) (r : result A) :
  body s = (r, s1) →
  (∀ exc, r ≠ Raise exc) →
  exception_handler sql body s = (r, s1).
Proof.
  intros Hbody Hr. unfold exception_handler, try_except. rewrite Hbody.
  destruct r as [a|exc|]; [reflexivity| |reflexivity].
  exfalso. apply (Hr exc). reflexivity.
Qed.

(** When [get_result_from_cursor] returns, the loop has met a falsy
    [nextset], and the table is the one built from the description and
    the fetched rows. *)
Lemma get_result_from_cursor_returns (fuel : nat) (cur : Cursor)
    (st st' : State W) (desc : list column) (rs : list row) (w1 : W)
    (t : Table) :
  Cursor_description cur (world st) = Some desc →
  Cursor_fetchall cur (world st) = (Returns rs, w1) →
  get_result_from_cursor fuel cur st = (Ok t, st') →
  t = table_of desc rs ∧
  ∃ n, n < fuel ∧ nextset_run n cur w1 = Some (Drained, world st').
Proof.
  intros Hdesc Hfetch.
  unfold get_result_from_cursor, cursor_fetchall.
  unfold mbind at 1, M_bind at 1, bind at 1, peek. rewrite Hdesc.
  unfold mbind at 1, M_bind at 1, bind at 1.
  unfold mbind at 1, M_bind at 1, bind at 1.
  unfold mbind at 1, M_bind at 1, bind at 1, emit, call. simpl.
  rewrite Hfetch.
  unfold mbind at 1, M_bind at 1, bind at 1.
  destruct (while fuel _ _ _) as [[[]|exc|] s2] eqn:Hloop; simpl;
    try discriminate.
  destruct (while_nextset_ends cur _ (fetch_iter cur) (fetch_body cur)
              _ _ _ _ Hloop ltac:(discriminate))
    as (n & e & Hlt & He & Hn).
  destruct e; [|discriminate]. simpl in Hn.
  unfold table_of.
  destruct (process_results (column_name <$> desc) rs) as [names data].
  simpl. intros [= <- <-]. split; [reflexivity|]. eauto.
Qed.

Lemma execute_returns (fuel : nat) (st st' : State W) (sql : string)
    (auto_begin : bool) (conn : loc) (cur : Cursor) (w1 : W)
    (r : AdapterResponse * Table) :
  add_query (_add_query_comment sql) auto_begin (world st)
  = (Returns (conn, cur), w1) →
  execute fuel sql auto_begin false st = (Ok r, st') →
  r = (response_of cur w1, empty_table) ∧
  ∃ n, n < fuel ∧ nextset_run n cur w1 = Some (Drained, world st').
Proof.
  intros Hadd.
  unfold execute, self_add_query.
  unfold mbind at 1, M_bind at 1, bind at 1.
  unfold mbind at 1, M_bind at 1, bind at 1, emit, call. simpl.
  rewrite Hadd.
  unfold mbind at 1, M_bind at 1, bind at 1. rewrite get_response_run.
  unfold mbind at 1, M_bind at 1, bind at 1.
  unfold mbind at 1, M_bind at 1, bind at 1, try_except.
  destruct (while fuel _ _ _) as [[[]|exc|] s2] eqn:Hloop; simpl;
    try discriminate.
  destruct (while_nextset_ends cur _ (execute_iter cur) (execute_body cur)
              _ _ _ _ Hloop ltac:(discriminate))
    as (n & e & Hlt & He & Hn).
  destruct e; [|discriminate]. simpl in Hn.
  intros [= <- <-]. split; [reflexivity|]. eauto.
Qed.

(** Whatever [open] raises is a FailedToConnectException. *)
Lemma open_raises_only_FailedToConnect (st : State W) (c : loc)
    (conn : Connection) (e : exception) :
  objects st !! c = Some conn →
  (open c st).1 = Raise e →
  exc_class e = FailedToConnectException.
Proof.
  intros Hc.
  destruct (decide (state conn = "open")) as [Hopen|Hst].
  - rewrite (open_already_open st c conn Hc Hopen). discriminate.
  - destruct (connect (conn_info (credentials conn)) (world st))
      as [[h|exc] w1] eqn:Hconn.
    + rewrite (open_connect_returns st c conn h w1 Hc Hst Hconn).
      discriminate.
    + rewrite (open_connect_raises st c conn exc w1 Hc Hst Hconn).
      simpl. intros [= <-]. reflexivity.
Qed.

(** Whatever leaves [exception_handler] as an exception is a
    DatabaseException or a RuntimeException. *)
Lemma exception_handler_raises_only_wrapped {A} (sql : string)
    (body : M W A) (s : State W) (e : exception) :
  (exception_handler sql body s).1 = Raise e →
  exc_class e = DatabaseException ∨ exc_class e = RuntimeException.
Proof.
  destruct (body s) as [[a|exc|] s1] eqn:Hbody.
  - rewrite (exception_handler_passes sql body s s1 _ Hbody);
      discriminate.
  - rewrite (exception_handler_raises sql body s s1 exc Hbody). simpl.
    intros [= <-]. unfold wrapped_class. simpl.
    destruct (is_DatabaseError exc); auto.
  - rewrite (exception_handler_passes sql body s s1 _ Hbody);
      discriminate.
Qed.
End ExecuteFacts.

Section ExecuteClaims.
Context {W : Type} `{!VerticaPython W} `{!Framework W}.

(** C1, amended.  Driver exceptions are mapped to exactly three
    framework exception types.  When the driver's [connect] raises
    inside [open], a FailedToConnectException with the text of the
    driver's exception is raised (a failure of the optional
    materialization statement is swallowed instead and raises nothing);
    for a [vertica_python.DatabaseError] raised under
    [exception_handler] a DatabaseException is raised; for every other
    exception raised under [exception_handler] a RuntimeException is
    raised.  No driver exception escapes unwrapped: whatever [open]
    raises is a FailedToConnectException, whatever [exception_handler]
    raises is a DatabaseException or a RuntimeException. *)
Theorem driver_exceptions_are_wrapped {A : Type} (st : State W) (c : loc)
    (conn : Connection) (exc : exception) (w1 : W) (sql : string)
    (body : M W A) (sb sb1 : State W) (excb : exception) :
  objects st !! c = Some conn →
  state conn ≠ "open" →
  connect (conn_info (credentials conn)) (world st) = (Raises exc, w1) →
  body sb = (Raise excb, sb1) →
  (open c st).1 = Raise (Exc FailedToConnectException (str_exc exc)) ∧
  (is_DatabaseError excb = true →
   (exception_handler sql body sb).1
   = Raise (Exc DatabaseException (str_exc excb))) ∧
  (is_DatabaseError excb = false →
   (exception_handler sql body sb).1
   = Raise (Exc RuntimeException (str_exc excb))) ∧
  (∀ (s : State W) (c' : loc) (conn' : Connection) (e : exception),
     objects s !! c' = Some conn' →
     (open c' s).1 = Raise e →
     exc_class e = FailedToConnectException) ∧
  (∀ (b : M W A) (s : State W) (e : exception),
     (exception_handler sql b s).1 = Raise e →
     exc_class e = DatabaseException ∨ exc_class e = RuntimeException).
Proof.
  intros Hc Hst Hconn Hbody.
  split.
  { rewrite (open_connect_raises st c conn exc w1 Hc Hst Hconn).
    reflexivity. }
  rewrite (exception_handler_raises sql body sb sb1 excb Hbody).
  unfold wrapped_class. simpl.
  split; [intros ->; reflexivity|].
  split; [intros ->; reflexivity|].
  split.
  - intros s c' conn' e. apply open_raises_only_FailedToConnect.
  - intros b s e. apply exception_handler_raises_only_wrapped.
Qed.


(** C4. Draining the result sets proceeds by repeated status checks.
    On a cursor with [n] remaining result sets ([n] truthy answers of
    [nextset], then a falsy one), both [get_result_from_cursor], after
    [fetchall], and [execute] with [fetch=False] call [nextset] [n + 1]
    times and read [cursor._message] once per truthy answer, in turn,
    and then return: the loop terminates, given fuel for [n + 1] tests.
    Either loop stops normally exactly when [nextset] has returned a
    falsy value: whenever the function returns, some run of truthy
    answers closed by a falsy one has taken place. *)
Theorem draining_by_status_checks (fuel n : nat) (cur : Cursor)
    (sf : State W) (desc : list column) (rs : list row) (wf1 wf2 : W)
    (se : State W) (sql : string) (auto_begin : bool) (conn : loc)
    (we1 we2 : W) :
  n < fuel →
  Cursor_description cur (world sf) = Some desc →
  Cursor_fetchall cur (world sf) = (Returns rs, wf1) →
  nextset_run n cur wf1 = Some (Drained, wf2) →
  add_query (_add_query_comment sql) auto_begin (world se)
  = (Returns (conn, cur), we1) →
  nextset_run n cur we1 = Some (Drained, we2) →
  get_result_from_cursor fuel cur sf
  = (Ok (table_of desc rs),
     mkState wf2 (objects sf)
       (trace sf ++ EvFetchall cur
                    :: drain_events (fetch_iter cur) n cur wf1)) ∧
  execute fuel sql auto_begin false se
  = (Ok (response_of cur we1, empty_table),
     mkState we2 (objects se)
       (trace se ++
        [EvAddQuery (_add_query_comment sql) auto_begin; EvMessage cur]
        ++ drain_events (execute_iter cur) n cur we1)) ∧
  length (List.filter is_nextset (drain_events (fetch_iter cur) n cur wf1))
  = S n ∧
  length (List.filter is_message (drain_events (fetch_iter cur) n cur wf1))
  = n ∧
  length (List.filter is_nextset (drain_events (execute_iter cur) n cur we1))
  = S n ∧
  length (List.filter is_message (drain_events (execute_iter cur) n cur we1))
  = n ∧
  (∀ fuel' t s',
     get_result_from_cursor fuel' cur sf = (Ok t, s') →
     ∃ m, m < fuel' ∧ nextset_run m cur wf1 = Some (Drained, world s')) ∧
  (∀ fuel' r s',
     execute fuel' sql auto_begin false se = (Ok r, s') →
     ∃ m, m < fuel' ∧ nextset_run m cur we1 = Some (Drained, world s')).
Proof.
  intros Hlt Hdesc Hfetch Hrunf Hadd Hrune.
  split.
  { apply (get_result_from_cursor_run fuel n cur sf desc rs wf1 wf2 Drained
             Hdesc Hfetch Hrunf Hlt). }
  split.
  { apply (execute_run fuel n se sql auto_begin conn cur we1 we2 Drained
             Hadd Hrune Hlt). }
  split; [apply drain_events_nextsets; reflexivity|].
  split; [apply drain_events_messages; reflexivity|].
  split; [apply drain_events_nextsets; reflexivity|].
  split; [apply drain_events_messages; reflexivity|].
  split.
  - intros fuel' t s' Hret.
    apply (get_result_from_cursor_returns fuel' cur sf s' desc rs wf1 t
             Hdesc Hfetch Hret).
  - intros fuel' r s' Hret.
    apply (execute_returns fuel' se s' sql auto_begin conn cur we1 r
             Hadd Hret).
Qed.

(** C6. Failure recovery is "close the connection and propagate an
    error".  When the body run under [exception_handler] raises, the
    handler logs, calls [self.release()] and then raises the wrapped
    exception; when a [nextset] call of the draining loop of [execute]
    raises, after [n] result sets, [execute] logs, calls
    [self.release()] and then raises a DatabaseException.  In both the
    log line and the [release] call are all that is added to the trace
    after the failure, and [release] is all that happens to the outside
    world: no other recovery action is taken. *)
Theorem failure_releases_then_raises {A : Type} (sql : string)
    (body : M W A) (sb sb1 : State W) (excb : exception) (fuel n : nat)
    (se : State W) (sqle : string) (auto_begin : bool) (conn : loc)
    (cur : Cursor) (we1 we2 : W) (exce : exception) :
  body sb = (Raise excb, sb1) →
  n < fuel →
  add_query (_add_query_comment sqle) auto_begin (world se)
  = (Returns (conn, cur), we1) →
  nextset_run n cur we1 = Some (Failed exce, we2) →
  exception_handler sql body sb
  = (Raise (Exc (wrapped_class excb) (str_exc excb)),
     mkState (release (world sb1)) (objects sb1)
             (trace sb1 ++ [handler_log excb; EvRelease])) ∧
  execute fuel sqle auto_begin false se
  = (Raise (Exc DatabaseException (str_exc exce)),
     mkState (release we2) (objects se)
       (trace se ++
        [EvAddQuery (_add_query_comment sqle) auto_begin; EvMessage cur]
        ++ drain_events (execute_iter cur) n cur we1
        ++ [EvLog (":P Error: " +:+ str_exc exce); EvRelease])).
Proof.
  intros Hbody Hlt Hadd Hrun. split.
  - apply (exception_handler_raises sql body sb sb1 excb Hbody).
  - apply (execute_run fuel n se sqle auto_begin conn cur we1 we2
             (Failed exce) Hadd Hrun Hlt).
Qed.
End ExecuteClaims.

(** ** The properties at work on the scripted world *)

Section Witnesses.
Import Scripted.

Lemma open_passes_conn_info_witness :
  objects (st_of w_ok (fresh false)) !! 0 = Some (fresh false) ∧
  state (fresh false) ≠ "open" ∧
  conn_info (creds false) = conn_info_spec (creds false) ∧
  ∃ evs, trace (open 0 (st_of w_ok (fresh false))).2
         = [] ++ EvConnect (conn_info_spec (creds false)) :: evs.
Proof.
  assert (H1 : objects (st_of w_ok (fresh false)) !! 0 = Some (fresh false))
    by reflexivity.
  assert (H2 : state (fresh false) ≠ "open") by discriminate.
  split; [exact H1|]. split; [exact H2|].
  destruct (open_passes_conn_info (st_of w_ok (fresh false)) 0 (fresh false)
              H1 H2) as (Heq & evs & Htr & _).
  split; [exact Heq|]. exists evs. exact Htr.
Defined.


Lemma open_connects_at_most_once_witness :
  objects (st_of w_refused (fresh true)) !! 0 = Some (fresh true) ∧
  state (fresh true) ≠ "open" ∧
  ∃ evs, trace (open 0 (st_of w_refused (fresh true))).2 = [] ++ evs ∧
         length (List.filter is_connect evs) ≤ 1.
Proof.
  assert (H1 : objects (st_of w_refused (fresh true)) !! 0
               = Some (fresh true)) by reflexivity.
  assert (H2 : state (fresh true) ≠ "open") by discriminate.
  split; [exact H1|]. split; [exact H2|].
  destruct (open_connects_at_most_once (st_of w_refused (fresh true)) 0
              (fresh true) H1 H2) as (evs & Htr & _ & Hle & _).
  exists evs. split; [exact Htr|exact Hle].
Defined.

Lemma open_idempotent_on_open_connection_witness :
  objects (st_of w_ok established) !! 0 = Some established ∧
  state established = "open" ∧
  (open 0 (st_of w_ok established)).1 = Ok 0 ∧
  objects (open 0 (st_of w_ok established)).2
  = objects (st_of w_ok established).
Proof.
  assert (H1 : objects (st_of w_ok established) !! 0 = Some established)
    by reflexivity.
  assert (H2 : state established = "open") by reflexivity.
  split; [exact H1|]. split; [exact H2|].
  destruct (open_idempotent_on_open_connection (st_of w_ok established) 0
              established H1 H2) as (Hr & Ho & _).
  split; [exact Hr|exact Ho].
Defined.

Lemma open_swallows_materialization_failure_witness :
  withMaterialization (credentials (fresh true)) = true ∧
  Cursor_execute cur0 alter_session w_rejecting
  = (Raises rejected, w_rejecting) ∧
  (open 0 (st_of w_rejecting (fresh true))).1 = Ok 0 ∧
  objects (open 0 (st_of w_rejecting (fresh true))).2 !! 0
  = Some (with_state_handle "open" (Some h0) (fresh true)).
Proof.
  split; [reflexivity|]. split; [reflexivity|].
  destruct (open_swallows_materialization_failure
              (st_of w_rejecting (fresh true)) 0 (fresh true) h0
              w_rejecting)
    as (Hr & Ho & _); try reflexivity; [discriminate|].
  split; [exact Hr|exact Ho].
Defined.

(** C1 as it stands fails on the materialization block: the ALTER
    SESSION statement raises inside [open], and [open] raises nothing,
    it returns the connection. *)
Lemma materialization_failure_raises_nothing :
  failure_inside_open (st_of w_rejecting (fresh true)) 0 ∧
  (open 0 (st_of w_rejecting (fresh true))).1 = Ok 0 ∧
  ¬ ∃ msg, (open 0 (st_of w_rejecting (fresh true))).1
           = Raise (Exc FailedToConnectException msg).
Proof.
  split.
  - exists (fresh true). split; [reflexivity|]. split; [discriminate|].
    simpl. split; [reflexivity|exact I].
  - split; [reflexivity|]. intros [msg Habs]. discriminate Habs.
Qed.

Lemma driver_exceptions_are_wrapped_witness :
  connect (conn_info (creds false)) w_refused = (Raises refused, w_refused) ∧
  (open 0 (st_of w_refused (fresh false))).1
  = Raise (Exc FailedToConnectException
               "Failed to establish a connection") ∧
  (exception_handler "select 1" (cursor_execute cur0 "select 1")
                     (st_of w_rejecting established)).1
  = Raise (Exc DatabaseException "Invalid parameter").
Proof.
  split; [reflexivity|].
  destruct (driver_exceptions_are_wrapped
              (st_of w_refused (fresh false)) 0 (fresh false) refused
              w_refused "select 1" (cursor_execute cur0 "select 1")
              (st_of w_rejecting established)
              (cursor_execute cur0 "select 1"
                 (st_of w_rejecting established)).2
              rejected)
    as (Ho & Hd & _); try reflexivity; [discriminate|].
  split; [exact Ho|]. apply Hd. reflexivity.
Defined.


Lemma draining_by_status_checks_witness :
  nextset_run 2 cur0 w_ok = Some (Drained, with_pending [] w_ok) ∧
  trace (get_result_from_cursor 3 cur0 (st_of w_ok established)).2
  = [EvFetchall cur0; EvNextset cur0; EvMessage cur0; EvNextset cur0;
     EvMessage cur0; EvNextset cur0] ∧
  trace (execute 3 "select 1" true false (st_of w_ok established)).2
  = [EvAddQuery "/* dbt */ select 1" true; EvMessage cur0;
     EvNextset cur0; EvMessage cur0;
     EvLog "Cursor message is: CommandComplete";
     EvNextset cur0; EvMessage cur0;
     EvLog "Cursor message is: ReadyForQuery";
     EvNextset cur0].
Proof.
  split; [reflexivity|].
  destruct (draining_by_status_checks 3 2 cur0 (st_of w_ok established)
              description0 rows0 w_ok (with_pending [] w_ok)
              (st_of w_ok established) "select 1" true 0
              w_ok (with_pending [] w_ok))
    as (Hg & He & _); try reflexivity; [lia|].
  rewrite Hg, He. split; reflexivity.
Defined.

Lemma failure_releases_then_raises_witness :
  nextset_run 1 cur0 w_broken
  = Some (Failed timed_out, with_pending [] w_broken) ∧
  (execute 2 "select 1" true false (st_of w_broken established)).1
  = Raise (Exc DatabaseException "timed out") ∧
  List.filter is_release
    (trace (execute 2 "select 1" true false (st_of w_broken established)).2)
  = [EvRelease] ∧
  last (trace (exception_handler "select 1" (cursor_execute cur0 "select 1")
                 (st_of w_rejecting established)).2)
  = Some EvRelease.
Proof.
  split; [reflexivity|].
  destruct (failure_releases_then_raises "select 1"
              (cursor_execute cur0 "select 1")
              (st_of w_rejecting established)
              (cursor_execute cur0 "select 1"
                 (st_of w_rejecting established)).2
              rejected 2 1 (st_of w_broken established) "select 1" true 0
              cur0 w_broken (with_pending [] w_broken) timed_out)
    as (Hh & He); try reflexivity; [lia|].
  rewrite Hh, He. repeat split; reflexivity.
Defined.
End Witnesses.

(** ** Further properties *)

Section MoreFacts.
Context {W : Type} `{!VerticaPython W} `{!Framework W}.

(** A run of the loop holds no event of a kind that neither [nextset]
    nor the loop body is. *)
Lemma drain_events_avoid (p : event → bool) (per_iter : W → list event)
    (cur : Cursor) :
  p (EvNextset cur) = false →
  (∀ w, List.filter p (per_iter w) = []) →
  ∀ n w, List.filter p (drain_events per_iter n cur w) = [].
Proof.
  intros Hnext Hp. induction n as [|n IH]; intros w; simpl; rewrite Hnext.
  - reflexivity.
  - rewrite List.filter_app, Hp, IH. reflexivity.
Qed.

(** [execute] with [fetch=True] is [add_query], [get_response] and then
    [get_result_from_cursor], whose outcome it passes on. *)
Lemma execute_fetch_run (fuel : nat) (st : State W) (sql : string)
    (auto_begin : bool) (conn : loc) (cur : Cursor) (w1 : W) :
  add_query (_add_query_comment sql) auto_begin (world st)
  = (Returns (conn, cur), w1) →
  execute fuel sql auto_begin true st
  = match get_result_from_cursor fuel cur
            (mkState w1 (objects st)
               (trace st ++ [EvAddQuery (_add_query_comment sql) auto_begin;
                             EvMessage cur])) with
    | (Ok t, s) => (Ok (response_of cur w1, t), s)
    | (Raise exc, s) => (Raise exc, s)
    | (OutOfFuel, s) => (OutOfFuel, s)
    end.
Proof.
  intros Hadd.
  unfold execute, self_add_query.
  unfold mbind at 1, M_bind at 1, bind at 1.
  unfold mbind at 1, M_bind at 1, bind at 1, emit, call. simpl.
  rewrite Hadd.
  unfold mbind at 1, M_bind at 1, bind at 1. rewrite get_response_run.
  unfold mbind at 1, M_bind at 1, bind at 1. simpl.
  rewrite <- app_assoc. simpl.
  destruct (get_result_from_cursor fuel cur _) as [[t|exc|] s]; reflexivity.
Qed.

Lemma get_result_from_cursor_no_description (fuel : nat) (cur : Cursor)
    (st : State W) :
  Cursor_description cur (world st) = None →
  get_result_from_cursor fuel cur st = (Ok empty_table, st).
Proof.
  intros Hdesc. unfold get_result_from_cursor.
  unfold mbind at 1, M_bind at 1, bind at 1, peek. rewrite Hdesc.
  reflexivity.
Qed.

Lemma get_result_from_cursor_fetchall_raises (fuel : nat) (cur : Cursor)
    (st : State W) (desc : list column) (exc : exception) (w1 : W) :
  Cursor_description cur (world st) = Some desc →
  Cursor_fetchall cur (world st) = (Raises exc, w1) →
  get_result_from_cursor fuel cur st
  = (Raise exc, mkState w1 (objects st) (trace st ++ [EvFetchall cur])).
Proof.
  intros Hdesc Hfetch. unfold get_result_from_cursor, cursor_fetchall.
  unfold mbind at 1, M_bind at 1, bind at 1, peek. rewrite Hdesc.
  unfold mbind at 1, M_bind at 1, bind at 1.
  unfold mbind at 1, M_bind at 1, bind at 1.
  unfold mbind at 1, M_bind at 1, bind at 1, emit, call. simpl.
  rewrite Hfetch. reflexivity.
Qed.
End MoreFacts.

Section ResultExtras.
Context {W : Type} `{!VerticaPython W} `{!Framework W}.

(** X1. When [cursor.description] is None, [get_result_from_cursor]
    returns the empty table at once, for any fuel: it calls neither
    [fetchall] nor [nextset], so the result sets to come are left
    undrained, and world and trace stay as they are. *)
Theorem get_result_without_description (fuel : nat) (cur : Cursor)
    (st : State W) :
  Cursor_description cur (world st) = None →
  get_result_from_cursor fuel cur st = (Ok empty_table, st) ∧
  column_names empty_table = [] ∧ rows empty_table = [].
Proof.
  intros Hdesc. split; [|split; reflexivity].
  apply get_result_from_cursor_no_description. exact Hdesc.
Qed.

(** X2. [get_result_from_cursor] catches nothing.  When [fetchall]
    raises, the very exception of the driver leaves the function, no
    [nextset] call is made and [release] is not called; when a [nextset]
    call raises after [n] result sets, the very exception leaves the
    function too, and again [release] is not called. *)
Theorem get_result_propagates_driver_errors (fuel n : nat) (cur : Cursor)
    (sa sb : State W) (desca descb : list column) (rs : list row)
    (exca excb : exception) (wa1 wb1 wb2 : W) :
  Cursor_description cur (world sa) = Some desca →
  Cursor_fetchall cur (world sa) = (Raises exca, wa1) →
  Cursor_description cur (world sb) = Some descb →
  Cursor_fetchall cur (world sb) = (Returns rs, wb1) →
  nextset_run n cur wb1 = Some (Failed excb, wb2) →
  n < fuel →
  get_result_from_cursor fuel cur sa
  = (Raise exca, mkState wa1 (objects sa) (trace sa ++ [EvFetchall cur])) ∧
  get_result_from_cursor fuel cur sb
  = (Raise excb,
     mkState wb2 (objects sb)
       (trace sb ++ EvFetchall cur
                    :: drain_events (fetch_iter cur) n cur wb1)) ∧
  List.filter is_release
    (EvFetchall cur :: drain_events (fetch_iter cur) n cur wb1) = [].
Proof.
  intros Hda Hfa Hdb Hfb Hrun Hlt. split.
  { apply (get_result_from_cursor_fetchall_raises fuel cur sa desca exca wa1
             Hda Hfa). }
  split.
  { apply (get_result_from_cursor_run fuel n cur sb descb rs wb1 wb2
             (Failed excb) Hdb Hfb Hrun Hlt). }
  simpl. apply drain_events_avoid; reflexivity.
Qed.

(** X3. [execute] with [fetch=True], on a statement with a description:
    the response is read right after [add_query], before any row is
    fetched, the table is built from that description and the rows of the
    first result set, and the calls are, in this order, [add_query], the
    read of [_message], [fetchall], and the draining of the [n] result
    sets that remain. *)
Theorem execute_fetch_returns_first_result_set (fuel n : nat) (st : State W)
    (sql : string) (auto_begin : bool) (conn : loc) (cur : Cursor)
    (desc : list column) (rs : list row) (w1 w2 w3 : W) :
  add_query (_add_query_comment sql) auto_begin (world st)
  = (Returns (conn, cur), w1) →
  Cursor_description cur w1 = Some desc →
  Cursor_fetchall cur w1 = (Returns rs, w2) →
  nextset_run n cur w2 = Some (Drained, w3) →
  n < fuel →
  execute fuel sql auto_begin true st
  = (Ok (response_of cur w1, table_of desc rs),
     mkState w3 (objects st)
       (trace st ++
        [EvAddQuery (_add_query_comment sql) auto_begin; EvMessage cur;
         EvFetchall cur] ++ drain_events (fetch_iter cur) n cur w2)).
Proof.
  intros Hadd Hdesc Hfetch Hrun Hlt.
  rewrite (execute_fetch_run fuel st sql auto_begin conn cur w1 Hadd).
  rewrite (get_result_from_cursor_run fuel n cur (mkState w1 _ _) desc rs
             w2 w3 Drained Hdesc Hfetch Hrun Hlt).
  simpl. rewrite <- app_assoc. reflexivity.
Qed.

(** X4. With [fetch=True] a failure while draining is not handled the
    way it is with [fetch=False]: when a [nextset] call raises after [n]
    result sets, [execute] lets the driver's exception through as it is,
    not wrapped in a DatabaseException, and never calls [release]. *)
Theorem execute_fetch_lets_drain_errors_through (fuel n : nat)
    (st : State W) (sql : string) (auto_begin : bool) (conn : loc)
    (cur : Cursor) (desc : list column) (rs : list row) (w1 w2 w3 : W)
    (exc : exception) :
  add_query (_add_query_comment sql) auto_begin (world st)
  = (Returns (conn, cur), w1) →
  Cursor_description cur w1 = Some desc →
  Cursor_fetchall cur w1 = (Returns rs, w2) →
  nextset_run n cur w2 = Some (Failed exc, w3) →
  n < fuel →
  (execute fuel sql auto_begin true st).1 = Raise exc ∧
  world (execute fuel sql auto_begin true st).2 = w3 ∧
  ∃ evs, trace (execute fuel sql auto_begin true st).2 = trace st ++ evs ∧
         List.filter is_release evs = [].
Proof.
  intros Hadd Hdesc Hfetch Hrun Hlt.
  rewrite (execute_fetch_run fuel st sql auto_begin conn cur w1 Hadd).
  rewrite (get_result_from_cursor_run fuel n cur (mkState w1 _ _) desc rs
             w2 w3 (Failed exc) Hdesc Hfetch Hrun Hlt).
  simpl. split; [reflexivity|]. split; [reflexivity|].
  eexists. split; [rewrite <- app_assoc; reflexivity|].
  simpl. apply drain_events_avoid; reflexivity.
Qed.

(** X5. With [fetch=True] and a statement without description (None),
    [execute] returns the response and the empty table without a single
    [nextset] call: the result sets to come are not drained. *)
Theorem execute_fetch_without_description (fuel : nat) (st : State W)
    (sql : string) (auto_begin : bool) (conn : loc) (cur : Cursor) (w1 : W) :
  add_query (_add_query_comment sql) auto_begin (world st)
  = (Returns (conn, cur), w1) →
  Cursor_description cur w1 = None →
  execute fuel sql auto_begin true st
  = (Ok (response_of cur w1, empty_table),
     mkState w1 (objects st)
       (trace st ++ [EvAddQuery (_add_query_comment sql) auto_begin;
                     EvMessage cur])).
Proof.
  intros Hadd Hdesc.
  rewrite (execute_fetch_run fuel st sql auto_begin conn cur w1 Hadd).
  rewrite get_result_from_cursor_no_description by exact Hdesc.
  reflexivity.
Qed.

(** X6. When [add_query] raises, [execute] raises the same exception,
    with or without [fetch]: it reads no response, calls nothing on a
    cursor and does not call [release] itself.  The statement it hands to
    [add_query] is the one [_add_query_comment] returned. *)
Theorem execute_passes_on_add_query_error (fuel : nat) (st : State W)
    (sql : string) (auto_begin fetch : bool) (exc : exception) (w1 : W) :
  add_query (_add_query_comment sql) auto_begin (world st)
  = (Raises exc, w1) →
  execute fuel sql auto_begin fetch st
  = (Raise exc,
     mkState w1 (objects st)
       (trace st ++ [EvAddQuery (_add_query_comment sql) auto_begin])).
Proof.
  intros Hadd. unfold execute, self_add_query.
  unfold mbind at 1, M_bind at 1, bind at 1.
  unfold mbind at 1, M_bind at 1, bind at 1, emit, call. simpl.
  rewrite Hadd. reflexivity.
Qed.

(** X7. [execute] with [fetch=False] never fetches: however the run of
    [nextset] calls ends, no [fetchall] call is made, and when [execute]
    returns the table is empty, whatever description and rows the cursor
    holds. *)
Theorem execute_without_fetch_never_fetches (fuel n : nat) (st : State W)
    (sql : string) (auto_begin : bool) (conn : loc) (cur : Cursor)
    (w1 w2 : W) (e : drain_end) :
  add_query (_add_query_comment sql) auto_begin (world st)
  = (Returns (conn, cur), w1) →
  nextset_run n cur w1 = Some (e, w2) →
  n < fuel →
  (∃ evs, trace (execute fuel sql auto_begin false st).2 = trace st ++ evs ∧
          List.filter is_fetchall evs = []) ∧
  ∀ r, (execute fuel sql auto_begin false st).1 = Ok r → r.2 = empty_table.
Proof.
  intros Hadd Hrun Hlt.
  rewrite (execute_run fuel n st sql auto_begin conn cur w1 w2 e
             Hadd Hrun Hlt).
  destruct e as [|exc]; simpl.
  - split.
    + eexists. split; [reflexivity|]. simpl.
      apply drain_events_avoid; reflexivity.
    + intros r [= <-]. reflexivity.
  - split.
    + eexists. split; [reflexivity|]. simpl.
      rewrite List.filter_app.
      rewrite drain_events_avoid by reflexivity. reflexivity.
    + intros r Habs. discriminate Habs.
Qed.

(** X8. [exception_handler] is transparent when the body returns: the
    value and the state are the body's, nothing is logged and [release]
    is not called. *)
Theorem exception_handler_transparent_on_return {A : Type} (sql : string)
    (body : M W A) (s s1 : State W) (a : A) :
  body s = (Ok a, s1) →
  exception_handler sql body s = (Ok a, s1).
Proof.
  intros Hbody. apply exception_handler_passes; [exact Hbody|].
  intros exc Habs. discriminate Habs.
Qed.

(** X9. [exception_handler] does not recognise what it has wrapped.
    Nested, the inner handler wraps the body's exception and releases,
    and the outer one, for which a framework exception is no
    [vertica_python.DatabaseError], wraps the result again, now always in
    a RuntimeException, and releases a second time. *)
Theorem exception_handler_nested_rewraps {A : Type} (sql sql' : string)
    (body : M W A) (s s1 : State W) (exc : exception) :
  body s = (Raise exc, s1) →
  exception_handler sql (exception_handler sql' body) s
  = (Raise (Exc RuntimeException
                (str_exc (Exc (wrapped_class exc) (str_exc exc)))),
     mkState (release (release (world s1))) (objects s1)
       (trace s1 ++
        [handler_log exc; EvRelease;
         EvLog (":P Error: "
                +:+ str_exc (Exc (wrapped_class exc) (str_exc exc)));
         EvRelease])).
Proof.
  intros Hbody.
  rewrite (exception_handler_raises sql (exception_handler sql' body) s _ _
             (exception_handler_raises sql' body s s1 exc Hbody)).
  unfold wrapped_class, handler_log, is_DatabaseError. simpl.
  destruct (exc_class exc); simpl; rewrite <- app_assoc; reflexivity.
Qed.
End ResultExtras.

Section OpenExtras.
Context {W : Type} `{!VerticaPython W} `{!Framework W}.

(** X10. [open] can be tried again after a failure: the state 'fail' is
    not 'open', so a second [open] calls [connect] once more, with the
    same parameters, in the world the first call left; when that call
    returns, the connection is 'open' with the new handle.  Over the two
    calls [connect] is called twice. *)
Theorem open_again_after_failure (st : State W) (c : loc)
    (conn : Connection) (exc : exception) (w1 : W) (h : Handle) (w2 : W) :
  objects st !! c = Some conn →
  state conn ≠ "open" →
  connect (conn_info (credentials conn)) (world st) = (Raises exc, w1) →
  connect (conn_info (credentials conn)) w1 = (Returns h, w2) →
  (open c (open c st).2).1 = Ok c ∧
  objects (open c (open c st).2).2 !! c
  = Some (with_state_handle "open" (Some h) conn) ∧
  ∃ evs, trace (open c (open c st).2).2 = trace st ++ evs ∧
         List.filter is_connect evs
         = [EvConnect (conn_info (credentials conn));
            EvConnect (conn_info (credentials conn))].
Proof.
  intros Hc Hst Hraise Hret.
  rewrite (open_connect_raises st c conn exc w1 Hc Hst Hraise). simpl.
  rewrite (open_connect_returns (mkState w1 _ _) c
             (with_state_handle "fail" None conn) h w2
             (lookup_insert_eq _ _ _) ltac:(discriminate) Hret).
  simpl. split; [reflexivity|]. split; [apply lookup_insert_eq|].
  eexists. split; [rewrite <- app_assoc; reflexivity|].
  simpl. rewrite after_connect_no_connect. reflexivity.
Qed.

(** X11. [open] touches one connection object only and never its
    credentials: every other object of the store is as it was, and the
    connection keeps the credentials it had, however [open] ends. *)
Theorem open_frames_other_connections (st : State W) (c c' : loc)
    (conn : Connection) :
  objects st !! c = Some conn →
  c' ≠ c →
  objects (open c st).2 !! c' = objects st !! c' ∧
  ∃ conn', objects (open c st).2 !! c = Some conn' ∧
           credentials conn' = credentials conn.
Proof.
  intros Hc Hne.
  destruct (decide (state conn = "open")) as [Hopen|Hst].
  - rewrite (open_already_open st c conn Hc Hopen). simpl.
    split; [reflexivity|]. exists conn. split; [exact Hc|reflexivity].
  - destruct (connect (conn_info (credentials conn)) (world st))
      as [[h|exc] w1] eqn:Hconn.
    + rewrite (open_connect_returns st c conn h w1 Hc Hst Hconn). simpl.
      split; [apply lookup_insert_ne; congruence|].
      eexists. split; [apply lookup_insert_eq|reflexivity].
    + rewrite (open_connect_raises st c conn exc w1 Hc Hst Hconn). simpl.
      split; [apply lookup_insert_ne; congruence|].
      eexists. split; [apply lookup_insert_eq|reflexivity].
Qed.

(** X12. Without [withMaterialization], [connect] is the only call
    [open] makes into the driver: when it returns, the world is the one
    [connect] left and no cursor is opened, no statement executed. *)
Theorem open_plain_only_connects (st : State W) (c : loc)
    (conn : Connection) (h : Handle) (w1 : W) :
  objects st !! c = Some conn →
  state conn ≠ "open" →
  withMaterialization (credentials conn) = false →
  connect (conn_info (credentials conn)) (world st) = (Returns h, w1) →
  open c st
  = (Ok c,
     mkState w1
       (<[c := with_state_handle "open" (Some h) conn]> (objects st))
       (trace st ++
        [EvConnect (conn_info (credentials conn));
         EvLog (":P Connected to database: "
                +:+ database (credentials conn) +:+ " at "
                +:+ host (credentials conn))])).
Proof.
  intros Hc Hst Hmat Hconn.
  rewrite (open_connect_returns st c conn h w1 Hc Hst Hconn), Hmat.
  reflexivity.
Qed.

(** X13. The cursor [open] takes for the ALTER SESSION statement is
    closed only when the statement succeeds: when [execute] returns,
    [close] is called on that cursor, once; when [execute] raises, [open]
    returns without ever closing the cursor. *)
Theorem open_closes_cursor_only_on_success (st : State W) (c : loc)
    (conn : Connection) (h : Handle) (w1 w2 w3 : W) (cur : Cursor)
    (o : outcome unit) :
  objects st !! c = Some conn →
  state conn ≠ "open" →
  withMaterialization (credentials conn) = true →
  connect (conn_info (credentials conn)) (world st) = (Returns h, w1) →
  Connection_cursor h w1 = (Returns cur, w2) →
  Cursor_execute cur alter_session w2 = (o, w3) →
  ∃ evs, trace (open c st).2 = trace st ++ evs ∧
         List.filter is_execute evs = [EvExecute cur alter_session] ∧
         List.filter is_close evs
         = match o with
           | Returns _ => [EvClose cur]
           | Raises _ => []
           end ∧
         world (open c st).2
         = match o with
           | Returns _ => (Cursor_close cur w3).2
           | Raises _ => w3
           end.
Proof.
  intros Hc Hst Hmat Hconn Hcur Hexe.
  rewrite (open_connect_returns st c conn h w1 Hc Hst Hconn), Hmat.
  unfold after_connect, materialization_effect, could_not.
  rewrite Hcur, Hexe. simpl.
  eexists. split; [reflexivity|].
  destruct o as [[]|exc]; simpl.
  - destruct (Cursor_close cur w3) as [[[]|exc] w4]; simpl;
      repeat split; reflexivity.
  - repeat split; reflexivity.
Qed.

(** X14. The connection parameters depend on the host, the port, the
    user name, the password, the database and the timeout, and on nothing
    else: two credentials give the same parameters exactly when they
    agree on these six fields.  The schema and [withMaterialization]
    never reach the driver. *)
Theorem conn_info_driver_fields (c1 c2 : verticaCredentials) :
  conn_info c1 = conn_info c2 ↔ driver_fields c1 = driver_fields c2.
Proof.
  split.
  - intros Heq.
    assert (Hl : ∀ k, conn_info c1 !! k = conn_info c2 !! k)
      by (intros k; rewrite Heq; reflexivity).
    pose proof (Hl "host") as Hhost.
    pose proof (Hl "port") as Hport.
    pose proof (Hl "user") as Huser.
    pose proof (Hl "password") as Hpass.
    pose proof (Hl "database") as Hdb.
    pose proof (Hl "connection_timeout") as Htime.
    change (Some (PyStr (host c1)) = Some (PyStr (host c2))) in Hhost.
    change (Some (PyInt (port c1)) = Some (PyInt (port c2))) in Hport.
    change (Some (PyStr (username c1)) = Some (PyStr (username c2))) in Huser.
    change (Some (PyStr (password c1)) = Some (PyStr (password c2))) in Hpass.
    change (Some (PyStr (database c1)) = Some (PyStr (database c2))) in Hdb.
    change (Some (PyInt (timeout c1)) = Some (PyInt (timeout c2))) in Htime.
    unfold driver_fields. congruence.
  - unfold driver_fields, conn_info. intros [= -> -> -> -> -> ->].
    reflexivity.
Qed.

(** X15. Opening twice connects once: after an [open] that connected, a
    second [open] on the same connection returns it, leaves store and
    world as the first call left them and adds no [connect] call. *)
Theorem open_twice_connects_once (st : State W) (c : loc)
    (conn : Connection) (h : Handle) (w1 : W) :
  objects st !! c = Some conn →
  state conn ≠ "open" →
  connect (conn_info (credentials conn)) (world st) = (Returns h, w1) →
  (open c (open c st).2).1 = Ok c ∧
  objects (open c (open c st).2).2 = objects (open c st).2 ∧
  world (open c (open c st).2).2 = world (open c st).2 ∧
  ∃ evs, trace (open c (open c st).2).2 = trace st ++ evs ∧
         List.filter is_connect evs
         = [EvConnect (conn_info (credentials conn))].
Proof.
  intros Hc Hst Hconn.
  rewrite (open_connect_returns st c conn h w1 Hc Hst Hconn). simpl.
  rewrite (open_already_open (mkState _ _ _) c
             (with_state_handle "open" (Some h) conn)
             (lookup_insert_eq _ _ _) eq_refl).
  simpl. repeat split.
  eexists. split; [rewrite <- app_assoc; reflexivity|].
  simpl. rewrite List.filter_app, after_connect_no_connect. reflexivity.
Qed.
End OpenExtras.

Section CancelExtras.
Context {W : Type} `{!VerticaPython W} `{!Framework W} `{!VerticaCancel W}.

(** X16. Cancelling a connection whose [open] failed reaches no driver:
    [open] has set the handle to None, so [cancel] logs and ends with an
    AttributeError, not a framework exception, and the world stays as
    the failed [connect] left it. *)
Theorem cancel_after_failed_open (st : State W) (c : loc)
    (conn : Connection) (exc : exception) (w1 : W) :
  objects st !! c = Some conn →
  state conn ≠ "open" →
  connect (conn_info (credentials conn)) (world st) = (Raises exc, w1) →
  ∃ msg, (cancel c (open c st).2).1
         = Raise (Exc (OtherException "AttributeError") msg) ∧
         world (cancel c (open c st).2).2 = w1 ∧
         objects (cancel c (open c st).2).2 = objects (open c st).2 ∧
         trace (cancel c (open c st).2).2
         = trace (open c st).2 ++ [EvLog ":P Cancel query"].
Proof.
  intros Hc Hst Hconn.
  rewrite (open_connect_raises st c conn exc w1 Hc Hst Hconn). simpl.
  unfold cancel, logger_debug, handle_cancel. unfold_monad. simpl.
  rewrite lookup_insert_eq. simpl.
  eexists. repeat split; reflexivity.
Qed.

(** X17. On a connection with a handle, [cancel] is the driver's
    [cancel] and nothing more: its exceptions leave [cancel] as they are,
    unwrapped and without a [release], and the connection object keeps
    its state and its handle. *)
Theorem cancel_delegates_to_driver (st : State W) (c : loc)
    (conn : Connection) (h : Handle) (o : outcome unit) (w1 : W) :
  objects st !! c = Some conn →
  handle conn = Some h →
  Connection_cancel h (world st) = (o, w1) →
  cancel c st
  = (match o with
     | Returns _ => Ok tt
     | Raises exc => Raise exc
     end,
     mkState w1 (objects st) (trace st ++ [EvLog ":P Cancel query"])).
Proof.
  intros Hc Hh Hcancel.
  unfold cancel, logger_debug, handle_cancel. unfold_monad. simpl.
  rewrite Hc. simpl. rewrite Hh. simpl. rewrite Hcancel.
  destruct o as [[]|exc]; reflexivity.
Qed.
End CancelExtras.

(** ** The further properties at work on the scripted worlds *)

Section ExtraWitnesses.
Import Scripted ScriptedMore ScriptedCancel.

Lemma get_result_without_description_witness :
  Cursor_description cur0 w_ddl = None ∧
  get_result_from_cursor 0 cur0 (st_of w_ddl established)
  = (Ok empty_table, st_of w_ddl established).
Proof.
  split; [reflexivity|].
  apply (get_result_without_description 0 cur0 (st_of w_ddl established)).
  reflexivity.
Defined.

Lemma get_result_propagates_driver_errors_witness :
  Cursor_fetchall cur0 w_unfetchable = (Raises lost, w_unfetchable) ∧
  nextset_run 1 cur0 w_broken
  = Some (Failed timed_out, with_pending [] w_broken) ∧
  (get_result_from_cursor 2 cur0 (st_of w_unfetchable established)).1
  = Raise lost ∧
  (get_result_from_cursor 2 cur0 (st_of w_broken established)).1
  = Raise timed_out.
Proof.
  split; [reflexivity|]. split; [reflexivity|].
  destruct (get_result_propagates_driver_errors 2 1 cur0
              (st_of w_unfetchable established) (st_of w_broken established)
              description0 description0 rows0 lost timed_out
              w_unfetchable w_broken (with_pending [] w_broken))
    as (Ha & Hb & _);
    [.. | rewrite Ha, Hb; split; reflexivity]; first [reflexivity | lia].
Defined.

Lemma execute_fetch_returns_first_result_set_witness :
  nextset_run 2 cur0 w_ok = Some (Drained, with_pending [] w_ok) ∧
  (execute 3 "select 1" true true (st_of w_ok established)).1
  = Ok (response_of cur0 w_ok, table_of description0 rows0).
Proof.
  split; [reflexivity|].
  rewrite (execute_fetch_returns_first_result_set 3 2
             (st_of w_ok established) "select 1" true 0 cur0 description0
             rows0 w_ok w_ok (with_pending [] w_ok));
    try reflexivity. lia.
Defined.

Lemma execute_fetch_lets_drain_errors_through_witness :
  nextset_run 1 cur0 w_broken
  = Some (Failed timed_out, with_pending [] w_broken) ∧
  (execute 2 "select 1" true true (st_of w_broken established)).1
  = Raise timed_out.
Proof.
  split; [reflexivity|].
  destruct (execute_fetch_lets_drain_errors_through 2 1
              (st_of w_broken established) "select 1" true 0 cur0
              description0 rows0 w_broken w_broken
              (with_pending [] w_broken) timed_out)
    as (Hr & _); [.. | exact Hr]; first [reflexivity | lia].
Defined.

Lemma execute_fetch_without_description_witness :
  Cursor_description cur0 w_ddl = None ∧
  pending (world (execute 0 "create table t (a int)" true true
                    (st_of w_ddl established)).2)
  = [Returns (PyBool true)].
Proof.
  split; [reflexivity|].
  rewrite (execute_fetch_without_description 0 (st_of w_ddl established)
             "create table t (a int)" true 0 cur0 w_ddl);
    reflexivity.
Defined.

Lemma execute_passes_on_add_query_error_witness :
  add_query (_add_query_comment "select 1") true w_no_query
  = (Raises (Exc DatabaseException "Database Error"), w_no_query) ∧
  (execute 3 "select 1" true false (st_of w_no_query established)).1
  = Raise (Exc DatabaseException "Database Error").
Proof.
  split; [reflexivity|].
  rewrite (execute_passes_on_add_query_error 3
             (st_of w_no_query established) "select 1" true false
             (Exc DatabaseException "Database Error") w_no_query);
    reflexivity.
Defined.

Lemma execute_without_fetch_never_fetches_witness :
  nextset_run 2 cur0 w_ok = Some (Drained, with_pending [] w_ok) ∧
  ∀ r, (execute 3 "select 1" true false (st_of w_ok established)).1 = Ok r →
       r.2 = empty_table.
Proof.
  split; [reflexivity|].
  destruct (execute_without_fetch_never_fetches 3 2
              (st_of w_ok established) "select 1" true 0 cur0 w_ok
              (with_pending [] w_ok) Drained)
    as (_ & Hr); [.. | exact Hr]; first [reflexivity | lia].
Defined.

Lemma exception_handler_transparent_on_return_witness :
  exception_handler "select 1" (cursor_execute cur0 "select 1")
                    (st_of w_ok established)
  = (Ok tt, mkState w_ok {[ 0 := established ]}
                    [EvExecute cur0 "select 1"]).
Proof.
  apply (exception_handler_transparent_on_return "select 1"
           (cursor_execute cur0 "select 1") (st_of w_ok established)).
  reflexivity.
Defined.

Lemma exception_handler_nested_rewraps_witness :
  (exception_handler "select 1"
     (exception_handler "select 1" (cursor_execute cur0 "select 1"))
     (st_of w_rejecting established)).1
  = Raise (Exc RuntimeException "Invalid parameter") ∧
  released (world (exception_handler "select 1"
     (exception_handler "select 1" (cursor_execute cur0 "select 1"))
     (st_of w_rejecting established)).2) = 2.
Proof.
  rewrite (exception_handler_nested_rewraps "select 1" "select 1"
             (cursor_execute cur0 "select 1")
             (st_of w_rejecting established)
             (cursor_execute cur0 "select 1"
                (st_of w_rejecting established)).2 rejected);
    [split; reflexivity|reflexivity].
Defined.

Lemma open_frames_other_connections_witness :
  objects st_two !! 0 = Some (fresh false) ∧
  objects (open 0 st_two).2 !! 1 = Some established.
Proof.
  split; [reflexivity|].
  destruct (open_frames_other_connections st_two 0 1 (fresh false))
    as (Hf & _); [reflexivity|discriminate|].
  exact (eq_trans Hf eq_refl).
Defined.

Lemma open_plain_only_connects_witness :
  withMaterialization (credentials (fresh false)) = false ∧
  world (open 0 (st_of w_ok (fresh false))).2 = w_ok ∧
  length (trace (open 0 (st_of w_ok (fresh false))).2) = 2.
Proof.
  split; [reflexivity|].
  rewrite (open_plain_only_connects (st_of w_ok (fresh false)) 0
             (fresh false) h0 w_ok); try reflexivity; [|discriminate].
  split; reflexivity.
Defined.

Lemma open_closes_cursor_only_on_success_witness :
  Cursor_execute cur0 alter_session w_rejecting
  = (Raises rejected, w_rejecting) ∧
  ∃ evs, trace (open 0 (st_of w_rejecting (fresh true))).2 = [] ++ evs ∧
         List.filter is_close evs = [].
Proof.
  split; [reflexivity|].
  destruct (open_closes_cursor_only_on_success
              (st_of w_rejecting (fresh true)) 0 (fresh true) h0
              w_rejecting w_rejecting w_rejecting cur0 (Raises rejected))
    as (evs & Htr & _ & Hcl & _);
    [.. | exists evs; split; [exact Htr|exact Hcl]];
    first [reflexivity | discriminate].
Defined.

Lemma open_twice_connects_once_witness :
  connect (conn_info (creds false)) w_ok = (Returns h0, w_ok) ∧
  (open 0 (open 0 (st_of w_ok (fresh false))).2).1 = Ok 0.
Proof.
  split; [reflexivity|].
  destruct (open_twice_connects_once (st_of w_ok (fresh false)) 0
              (fresh false) h0 w_ok) as (Hr & _);
    [.. | exact Hr]; first [reflexivity | discriminate].
Defined.

Lemma cancel_after_failed_open_witness :
  connect (conn_info (creds true)) w_refused = (Raises refused, w_refused) ∧
  ∃ msg, (cancel 0 (open 0 (st_of w_refused (fresh true))).2).1
         = Raise (Exc (OtherException "AttributeError") msg).
Proof.
  split; [reflexivity|].
  destruct (cancel_after_failed_open (st_of w_refused (fresh true)) 0
              (fresh true) refused w_refused)
    as (msg & Hr & _);
    [.. | exists msg; exact Hr]; first [reflexivity | discriminate].
Defined.

Lemma cancel_delegates_to_driver_witness :
  handle established = Some h0 ∧
  (cancel 0 (st_of w_ok established)).1 = Ok tt ∧
  objects (cancel 0 (st_of w_ok established)).2 !! 0 = Some established.
Proof.
  split; [reflexivity|].
  rewrite (cancel_delegates_to_driver (st_of w_ok established) 0 established
             h0 (Returns tt) (with_pending [] w_ok));
    try reflexivity. split; reflexivity.
Defined.
End ExtraWitnesses.

Section FlakyWitness.
Import Flaky.

Lemma open_again_after_failure_witness :
  connect (conn_info (Scripted.creds false)) 1
  = (Raises Scripted.refused, 0) ∧
  connect (conn_info (Scripted.creds false)) 0 = (Returns Scripted.h0, 0) ∧
  (open 0 Flaky.st_once).1
  = Raise (Exc FailedToConnectException
               "Failed to establish a connection") ∧
  (open 0 (open 0 Flaky.st_once).2).1 = Ok 0.
Proof.
  split; [reflexivity|]. split; [reflexivity|]. split; [reflexivity|].
  destruct (open_again_after_failure Flaky.st_once 0
              (Scripted.fresh false) Scripted.refused 0 Scripted.h0 0)
    as (Hr & _);
    [.. | exact Hr]; first [reflexivity | discriminate].
Defined.
End FlakyWitness.
